(** * texto_juridico: the analysis pipeline of [api.py]

    A shallow embedding of class [AnalisadorJuridico] (src/api.py):
    citation extraction, statute retrieval, discrepancy analysis,
    simplification and the document-level orchestration, followed by the
    properties of the specification that concern them.

    Python [str] values are lists of Unicode code points, so that [len],
    slicing and [in] count characters as Python does. *)

From Stdlib Require Import NArith ZArith List String Ascii Bool Lia.
From stdpp Require Import base decidable list gmap sets.

Set Warnings "-register-all".
Local Open Scope N_scope.

(** ** Python strings *)

Module PyStr.

Abbreviation char := N (only parsing).
Abbreviation str := (list N) (only parsing).

(** Decoding of the UTF-8 bytes of a literal of this file into code
    points (one, two and three byte sequences), so that the Python
    literals of the source can be written down as they are. *)
Fixpoint utf8 (bs : list N) : str :=
  match bs with
  | [] => []
  | b :: rest =>
      if b <? 128 then b :: utf8 rest
      else if b <? 224 then
        match rest with
        | b2 :: rest2 => ((b - 192) * 64 + (b2 - 128)) :: utf8 rest2
        | [] => [b]
        end
      else
        match rest with
        | b2 :: b3 :: rest3 =>
            ((b - 224) * 4096 + (b2 - 128) * 64 + (b3 - 128)) :: utf8 rest3
        | _ => [b]
        end
  end.

Definition py (s : string) : str :=
  utf8 (List.map N_of_ascii (list_ascii_of_string s)).
Arguments py s%_string.

(** [str.isspace] of one character, which is also [\s] of a [str]
    pattern: the code points CPython's [_PyUnicode_IsWhitespace] accepts. *)
Definition isspace (c : char) : bool :=
  ((9 <=? c) && (c <=? 13)) || ((28 <=? c) && (c <=? 32))
  || (c =? 133) || (c =? 160) || (c =? 5760)
  || ((8192 <=? c) && (c <=? 8202))
  || (c =? 8232) || (c =? 8233) || (c =? 8239) || (c =? 8287)
  || (c =? 12288).

Definition str_eqb (a b : str) : bool := bool_decide (a = b).

(** [s.startswith(p)] *)
Fixpoint startswith (p s : str) : bool :=
  match p, s with
  | [], _ => true
  | _ :: _, [] => false
  | a :: p', b :: s' => (a =? b) && startswith p' s'
  end.

(** [needle in hay], the substring test. *)
Fixpoint contains (needle hay : str) : bool :=
  startswith needle hay
  || match hay with
     | [] => false
     | _ :: hay' => contains needle hay'
     end.

(** [s[a:b]] for [0 <= a <= b]. *)
Definition slice (s : str) (a b : nat) : str := take (b - a) (drop a s).

(** [s[:n]] *)
Definition upto (n : nat) (s : str) : str := take n s.
Arguments upto : simpl never.

Fixpoint lstrip (s : str) : str :=
  match s with
  | c :: s' => if isspace c then lstrip s' else s
  | [] => []
  end.

Definition rstrip (s : str) : str := rev (lstrip (rev s)).

(** [s.strip()] *)
Definition strip (s : str) : str := rstrip (lstrip s).

(** [s.split(sep)] for a one-character separator: the pieces between
    the occurrences of [sep] (always at least one piece). *)
Fixpoint split_on (sep : char) (s : str) : list str :=
  match s with
  | [] => [[]]
  | c :: s' =>
      if c =? sep then [] :: split_on sep s'
      else match split_on sep s' with
           | piece :: pieces => (c :: piece) :: pieces
           | [] => [[c]]
           end
  end.

(** [sep.join(pieces)] *)
Fixpoint join (sep : str) (pieces : list str) : str :=
  match pieces with
  | [] => []
  | [p] => p
  | p :: rest => p ++ sep ++ join sep rest
  end.

(** [l[1:-1]] *)
Definition inner {A} (l : list A) : list A :=
  match l with
  | [] => []
  | _ :: l' => removelast l'
  end.

End PyStr.
Import PyStr.

(** ** The part of [re] that [extrair_citacoes_legais] uses

    The six patterns are compiled with [re.IGNORECASE] over [str], so a
    literal letter accepts every character whose simple lower-case mapping
    is the letter's, or one of the extra equivalents CPython adds
    ([sre_compile._ignorecase_fixes]).  [\s], [\d] and the set [[ºª]] hold
    no cased character and are matched as they are.  All repetitions of the
    patterns are over a single character, which CPython runs greedily and
    gives back one character at a time. *)

Module Re.

(** Simple lower-case mapping, on the code points whose image can be a
    character of the patterns (Latin-1 letters, and the three characters
    outside Latin-1 that map into it); the identity elsewhere. *)
Definition sre_lower_unicode (c : char) : char :=
  if (65 <=? c) && (c <=? 90) then c + 32
  else if (192 <=? c) && (c <=? 222) && negb (c =? 215) then c + 32
  else if c =? 304 then 105
  else if c =? 8490 then 107
  else if c =? 8491 then 229
  else c.

(** Simple upper-case mapping on Latin-1, where the pattern characters live. *)
Definition sre_upper_unicode (c : char) : char :=
  if (97 <=? c) && (c <=? 122) then c - 32
  else if (224 <=? c) && (c <=? 254) && negb (c =? 247) then c - 32
  else if c =? 255 then 376
  else if c =? 181 then 924
  else c.

Definition iscased (c : char) : bool :=
  negb (c =? sre_lower_unicode c) || negb (c =? sre_upper_unicode c).

(** The lower-case characters CPython treats as equal to [lo] besides [lo]
    itself: dotless i for i, long s for s, Greek mu for the micro sign. *)
Definition ignorecase_fixes (lo : char) : list char :=
  if lo =? 105 then [305]
  else if lo =? 115 then [383]
  else if lo =? 181 then [956]
  else [].

(** Does character [c] of the text match the pattern literal [p]? *)
Definition literal_ignore (p c : char) : bool :=
  if iscased p then
    let lo := sre_lower_unicode p in
    let lc := sre_lower_unicode c in
    (lc =? lo) || existsb (N.eqb lc) (ignorecase_fixes lo)
  else c =? p.

Inductive atom : Type :=
| Lit (p : char)
| Space
| Digit
| OneOf (ps : list char).

Inductive re : Type :=
| Eps
| One (a : atom)
| Opt (a : atom)
| Star (a : atom)
| Plus (a : atom)
| Seq (r1 r2 : re)
| Alt (r1 r2 : re).

Definition seqs (rs : list re) : re := foldr Seq Eps rs.
Definition lits (s : str) : re := seqs (List.map (fun p => One (Lit p)) s).

Section Matcher.

(** [\d] of a [str] pattern is the Unicode category Nd of the interpreter's
    character database, which changes with its version: a parameter. *)
Variable isdecimal : char -> bool.

Definition test (a : atom) (c : char) : bool :=
  match a with
  | Lit p => literal_ignore p c
  | Space => isspace c
  | Digit => isdecimal c
  | OneOf ps => existsb (fun p => literal_ignore p c) ps
  end.

(** Greedy repetition of one character class with backtracking: [n]
    characters are consumed so far, [k] is the rest of the pattern. *)
Fixpoint repeat_one (p : char -> bool) (s : str) (n : nat)
    (k : nat -> str -> option nat) : option nat :=
  match s with
  | c :: s' =>
      if p c then
        match repeat_one p s' (S n) k with
        | Some e => Some e
        | None => k n s
        end
      else k n s
  | [] => k n s
  end.

(** The backtracking matcher: the first way, in the order of CPython's
    engine, of matching [r] at the head of [s] and then [k]. *)
Fixpoint run (r : re) (s : str) (n : nat)
    (k : nat -> str -> option nat) : option nat :=
  match r with
  | Eps => k n s
  | One a =>
      match s with
      | c :: s' => if test a c then k (S n) s' else None
      | [] => None
      end
  | Opt a =>
      match s with
      | c :: s' =>
          if test a c then
            match k (S n) s' with
            | Some e => Some e
            | None => k n s
            end
          else k n s
      | [] => k n s
      end
  | Star a => repeat_one (test a) s n k
  | Plus a =>
      match s with
      | c :: s' => if test a c then repeat_one (test a) s' (S n) k else None
      | [] => None
      end
  | Seq r1 r2 => run r1 s n (fun n' s' => run r2 s' n' k)
  | Alt r1 r2 =>
      match run r1 s n k with
      | Some e => Some e
      | None => run r2 s n k
      end
  end.

(** Length of the match of [r] that starts at the head of [s], if any. *)
Definition match_here (r : re) (s : str) : option nat :=
  run r s 0%nat (fun n _ => Some n).

(** A match object: the searched string and the span of group 0. *)
Record Match : Type := { m_string : str; m_span : nat * nat }.

Definition group0 (m : Match) : str :=
  slice (m_string m) (fst (m_span m)) (snd (m_span m)).

(** The scan of [re.finditer]: leftmost matches, left to right, the search
    resuming where the previous match ended.  [s] is the text from
    position [pos] on and [skip] counts the characters of the previous
    match still to be passed.  Every pattern of the source needs at least
    two characters, so the scan has nothing to find at the end of the
    text and the rules for empty matches play no part. *)
Fixpoint scan (r : re) (whole s : str) (pos skip : nat) : list Match :=
  match s with
  | [] => []
  | _ :: s' =>
      match skip with
      | S skip' => scan r whole s' (S pos) skip'
      | O =>
          match match_here r s with
          | Some len =>
              {| m_string := whole; m_span := (pos, (pos + len)%nat) |}
                :: scan r whole s' (S pos) (pred len)
          | None => scan r whole s' (S pos) 0%nat
          end
      end
  end.

Definition finditer (r : re) (texto : str) : list Match :=
  scan r texto texto 0%nat 0%nat.

End Matcher.

End Re.
Import Re.

(** ** Citation extraction *)

Inductive tipo_citacao : Type := tipo_lei | tipo_artigo.

(** The dict that [extrair_citacoes_legais] appends for each match. *)
Record citacao : Type := {
  texto : str;
  posicao : nat * nat;
  tipo : tipo_citacao
}.

(** [padroes], in the order of the source. *)
Definition padrao_lei : re :=
  seqs [lits (py "Lei"); Plus Space; Opt (Lit 110); Opt (Lit 186);
        Star Space;
        Plus Digit; Opt (Lit 46); Star Digit; Opt (Lit 47); Opt (Lit 45);
        Star Digit].

Definition numero_ordinal : re := Seq (Plus Digit) (Opt (OneOf [186; 170])).

Definition padrao_artigo : re :=
  seqs [lits (py "artigo"); Plus Space; numero_ordinal].

Definition padrao_art : re :=
  seqs [lits (py "art"); One (Lit 46); Star Space; numero_ordinal].

Definition padrao_codigo : re :=
  seqs [lits (py "Código"); Plus Space;
        Alt (lits (py "Civil"))
          (Alt (lits (py "Penal"))
             (seqs [lits (py "de"); Plus Space; lits (py "Defesa");
                    Plus Space; lits (py "do"); Plus Space;
                    lits (py "Consumidor")]))].

Definition padrao_cdc : re := lits (py "CDC").
Definition padrao_cc : re := lits (py "CC").

Definition padroes : list re :=
  [padrao_lei; padrao_artigo; padrao_art; padrao_codigo; padrao_cdc;
   padrao_cc].

Definition citacao_of_match (m : Match) : citacao :=
  {| texto := group0 m;
     posicao := m_span m;
     tipo := if contains (py "Lei") (group0 m) then tipo_lei else tipo_artigo |}.

Definition extrair_citacoes_legais (isdecimal : char -> bool) (txt : str)
    : list citacao :=
  flat_map (fun padrao => List.map citacao_of_match (finditer isdecimal padrao txt))
    padroes.

(** The decimal digits of ASCII: what every version of the character
    database has in Nd below code point 128. *)
Definition ascii_isdecimal (c : char) : bool := (48 <=? c) && (c <=? 57).


(** ** Exceptions, results and the monad of the collaborators

    Every exception of the model is an instance of Python's [Exception],
    which is what the two [except Exception] handlers of the source catch.
    [ParserRejectedMarkup] is what [BeautifulSoup] raises on markup that
    html.parser rejects (the parser's own [AssertionError] in the versions
    of bs4 that let it through). *)

Inductive exn : Type :=
| ConnectionError
| Timeout
| RequestException
| HTTPError (status : N)
| AttributeError
| KeyError (key : str)
| TypeError
| JSONDecodeError
| ParserRejectedMarkup
| ModelError (msg : str).

Inductive result (A : Type) : Type :=
| Ok (a : A)
| Raise (e : exn).
Arguments Ok {A} a.
Arguments Raise {A} e.

(** A computation over the state [W] of the outside world (the portal, the
    model service, the console): it ends with a value or an exception and
    leaves a new state. *)
Definition M (W A : Type) : Type := W -> result A * W.

Definition ret {W A} (a : A) : M W A := fun w => (Ok a, w).

Definition raise {W A} (e : exn) : M W A := fun w => (Raise e, w).

Definition bind {W A B} (c : M W A) (k : A -> M W B) : M W B :=
  fun w =>
    match c w with
    | (Ok a, w') => k a w'
    | (Raise e, w') => (Raise e, w')
    end.

(** [try: c  except Exception as e: h e] *)
Definition try_except {W A} (c : M W A) (h : exn -> M W A) : M W A :=
  fun w =>
    match c w with
    | (Ok a, w') => (Ok a, w')
    | (Raise e, w') => h e w'
    end.

Definition lift {W A} (r : result A) : M W A := fun w => (r, w).

Declare Scope py_scope.
Delimit Scope py_scope with py.
Notation "x <- c ;; k" := (bind c (fun x => k))
  (at level 100, c at next level, right associativity) : py_scope.
Notation "c ;;; k" := (bind c (fun _ => k))
  (at level 100, right associativity) : py_scope.

(** ** Documents as BeautifulSoup sees them *)

Inductive node : Type :=
| NavigableString (s : str)
| Tag (name : str) (attrs : list (str * str)) (contents : list node).

(** The elements below [n], in document order. *)
Fixpoint descendants (n : node) : list node :=
  match n with
  | NavigableString _ => []
  | Tag _ _ cs => flat_map (fun c => c :: descendants c) cs
  end.

(** [attrs.get(key, default)] *)
Fixpoint attrs_get (attrs : list (str * str)) (key default : str) : str :=
  match attrs with
  | [] => default
  | (k, v) :: rest => if str_eqb k key then v else attrs_get rest key default
  end.

(** [tag.get(key, default)] *)
Definition tag_get (n : node) (key default : str) : str :=
  match n with
  | Tag _ attrs _ => attrs_get attrs key default
  | NavigableString _ => default
  end.

(** The whitespace-separated tokens of an attribute value, which is how
    BeautifulSoup reads [class]. *)
Fixpoint tokens (s cur : str) : list str :=
  match s with
  | [] => match cur with [] => [] | _ => [rev cur] end
  | c :: s' =>
      if isspace c then
        match cur with
        | [] => tokens s' []
        | _ => rev cur :: tokens s' []
        end
      else tokens s' (c :: cur)
  end.

Definition is_tag (nm : str) (n : node) : bool :=
  match n with
  | Tag nm' _ _ => str_eqb nm' nm
  | NavigableString _ => false
  end.

Definition has_class (cls : str) (n : node) : bool :=
  existsb (str_eqb cls) (tokens (tag_get n (py "class") []) []).

(** [tag.find(name)]: the first descendant element of that name. *)
Definition find (nm : str) (n : node) : option node :=
  List.find (is_tag nm) (descendants n).

(** [tag.find(name, class_=cls)] *)
Definition find_class (nm cls : str) (n : node) : option node :=
  List.find (fun d => is_tag nm d && has_class cls d) (descendants n).

(** [tag.get_text()]: all the text below the element, concatenated. *)
Fixpoint get_text (n : node) : str :=
  match n with
  | NavigableString s => s
  | Tag _ _ cs => List.concat (List.map get_text cs)
  end.

(** [tag.get_text(strip=True)]: each string stripped, the empty ones
    dropped. *)
Fixpoint get_text_strip (n : node) : str :=
  match n with
  | NavigableString s => strip s
  | Tag _ _ cs => List.concat (List.map get_text_strip cs)
  end.

(** ** Values of [json.loads] *)

Inductive pyval : Type :=
| PyNone
| PyBool (b : bool)
| PyInt (z : Z)
| PyFloat (bits : N)
| PyStr (s : str)
| PyList (l : list pyval)
| PyDict (d : list (str * pyval)).

Fixpoint dict_get (d : list (str * pyval)) (key : str) : option pyval :=
  match d with
  | [] => None
  | (k, v) :: rest => if str_eqb k key then Some v else dict_get rest key
  end.

(** [v[key]] for a string key: only a dict that holds the key answers. *)
Definition subscript (v : pyval) (key : str) : result pyval :=
  match v with
  | PyDict d =>
      match dict_get d key with
      | Some x => Ok x
      | None => Raise (KeyError key)
      end
  | _ => Raise TypeError
  end.

(** ** The collaborators *)

Record Response : Type := { status_code : N; text : str }.

(** [response.raise_for_status()] *)
Definition raise_for_status {W} (r : Response) : M W unit :=
  if (400 <=? status_code r) && (status_code r <? 600)
  then raise (HTTPError (status_code r))
  else ret tt.

(** The input of the two chains [prompt | self.llm]: the template and the
    values of its variables. *)
Inductive prompt : Type :=
| PromptDiscrepancias (txt citacoes_json conteudo_leis : str)
| PromptSimplificar (txt : str).

(** What the code reaches outside itself: the libraries [requests], [bs4],
    [json], the chain of the language model and the console, over a state
    [W] of the outside world, and the digit table of the interpreter.
    [BeautifulSoup(markup, 'html.parser')] builds the tree of a document or
    raises, as it does on markup that html.parser rejects. *)
Record Collaborators (W : Type) : Type := {
  requests_get : str -> option str -> M W Response;
  BeautifulSoup : str -> result node;
  chain_invoke : prompt -> M W str;
  json_loads : str -> result pyval;
  json_dumps : list citacao -> str;
  exn_str : exn -> str;
  print : str -> W -> W;
  unicode_isdecimal : char -> bool
}.
Arguments requests_get {W} _ _ _ _.
Arguments BeautifulSoup {W} _ _.
Arguments chain_invoke {W} _ _ _.
Arguments json_loads {W} _ _.
Arguments json_dumps {W} _ _.
Arguments exn_str {W} _ _.
Arguments print {W} _ _ _.
Arguments unicode_isdecimal {W} _ _.

(** ** The methods of [AnalisadorJuridico] *)

(** The dict [buscar_conteudo_lei] returns. *)
Record ConteudoLei : Type := {
  c_lei : str;
  c_titulo : str;
  c_link : str;
  c_conteudo : str
}.

(** An entry of [leisEncontradas]. *)
Record LeiEncontrada : Type := { nome : str; link : str; status : str }.

(** The dict [processar_documento_completo] returns.  [discrepancias] is
    whatever value [analisar_discrepancias] handed back. *)
Record Resultado : Type := {
  textoSimplificado : str;
  discrepancias : pyval;
  leisEncontradas : list LeiEncontrada;
  citacoesEncontradas : nat
}.

Definition base_url : str :=
  py "https://www4.planalto.gov.br/legislacao/portal-legis/legislacao-1/decretos1/2025-decretos".

Definition LEI_CDC : str := py "Lei 8.078/90".
Definition LEI_CC : str := py "Lei 10.406/2002".

(** The branch of the first loop of [analisar_discrepancias]: the law a
    citation text adds to [leis_identificadas], if any. *)
Definition lei_identificada (t : str) : option str :=
  if contains (py "Lei") t then Some t
  else if contains (py "CDC") t then Some LEI_CDC
  else if contains (py "Código Civil") t || contains (py "CC") t
       then Some LEI_CC
  else None.

(** The body of the loop of [processar_documento_completo] up to the
    membership test: the [lei_busca] of a citation text that passes the
    guard, if it does. *)
Definition lei_busca_de (t : str) : option str :=
  if contains (py "Lei") t || contains (py "CDC") t || contains (py "Código") t
  then Some (if contains (py "CDC") t then LEI_CDC
             else if contains (py "Código Civil") t then LEI_CC
             else t)
  else None.

Definition entrada (c : ConteudoLei) : LeiEncontrada :=
  {| nome := c_titulo c; link := c_link c; status := py "Vigente" |}.

(** [f"\n{'='*60}\n{lei}\n{'='*60}\n"] *)
Definition cabecalho (l : str) : str :=
  [10] ++ repeat 61 60 ++ [10] ++ l ++ [10] ++ repeat 61 60 ++ [10].

Definition SEM_CONTEUDO : str :=
  py "Não foi possível buscar o conteúdo das leis.".

(** [f"{self.base_url}/legislacao-1/pesquisa"] *)
Definition url_busca : str := base_url ++ py "/legislacao-1/pesquisa".

Section Analisador.

Context {W : Type} (C : Collaborators W).

Local Open Scope py_scope.

(** The [try] block of [buscar_conteudo_lei]. *)
Definition buscar_conteudo_lei_try (lei_id : str) : M W (option ConteudoLei) :=
  response <- requests_get C url_busca (Some lei_id) ;;
  raise_for_status response ;;;
  soup <- lift (BeautifulSoup C (text response)) ;;
  match find_class (py "div") (py "item") soup with
  | None => ret None
  | Some primeiro_resultado =>
      match find (py "a") primeiro_resultado with
      | None => ret None
      | Some a =>
          let url_completa := tag_get a (py "href") [] in
          match url_completa with
          | _ :: _ =>
              conteudo_response <- requests_get C url_completa None ;;
              conteudo_soup <- lift (BeautifulSoup C (text conteudo_response)) ;;
              let conteudo := get_text conteudo_soup in
              titulo <- match find (py "h3") primeiro_resultado with
                        | Some h3 => ret (get_text_strip h3)
                        | None => raise AttributeError
                        end ;;
              ret (Some {| c_lei := lei_id;
                           c_titulo := titulo;
                           c_link := url_completa;
                           c_conteudo := upto 5000 conteudo |})
          | [] => ret None
          end
      end
  end.

(** Its [except] branch. *)
Definition buscar_except (lei_id : str) (e : exn) : M W (option ConteudoLei) :=
  fun w =>
    (Ok None,
     print C (py "Erro ao buscar lei " ++ lei_id ++ py ": " ++ exn_str C e) w).

Definition buscar_conteudo_lei (lei_id : str) : M W (option ConteudoLei) :=
  try_except (buscar_conteudo_lei_try lei_id) (buscar_except lei_id).

Definition extrair (txt : str) : list citacao :=
  extrair_citacoes_legais (unicode_isdecimal C) txt.

(** [leis_identificadas] after the first loop of [analisar_discrepancias]. *)
Definition leis_identificadas (citacoes : list citacao) : gset str :=
  foldl (fun leis cit =>
           match lei_identificada (texto cit) with
           | Some l => {[ l ]} ∪ leis
           | None => leis
           end) ∅ citacoes.

(** The second loop: one fetch per identified law, the retrieved contents
    appended to [conteudo_leis]. *)
Fixpoint juntar_conteudos (leis : list str) (conteudo_leis : str) : M W str :=
  match leis with
  | [] => ret conteudo_leis
  | l :: rest =>
      conteudo <- buscar_conteudo_lei l ;;
      match conteudo with
      | Some c =>
          juntar_conteudos rest
            (conteudo_leis ++ cabecalho l ++ upto 2000 (c_conteudo c))
      | None => juntar_conteudos rest conteudo_leis
      end
  end.

(** What is left of the response when it opens with a code fence. *)
Definition sem_cerca (resultado : str) : str :=
  if startswith (py "```") resultado
  then join [10] (inner (split_on 10 resultado))
  else resultado.

(** The [try] block of [analisar_discrepancias]. *)
Definition analisar_try (txt : str) (citacoes : list citacao)
    (conteudo_leis : str) : M W pyval :=
  resultado <- chain_invoke C
                 (PromptDiscrepancias txt (json_dumps C citacoes) conteudo_leis) ;;
  let resultado := sem_cerca (strip resultado) in
  parsed <- lift (json_loads C resultado) ;;
  lift (subscript parsed (py "discrepancias")).

(** [conteudo_leis] as the prompt receives it.  The iteration over the set
    follows [elements]; Python leaves the order of a set unspecified and
    nothing below depends on it. *)
Definition montar_conteudo_leis (citacoes : list citacao) : M W str :=
  conteudo_leis <- juntar_conteudos (elements (leis_identificadas citacoes)) [] ;;
  ret match conteudo_leis with
      | [] => SEM_CONTEUDO
      | _ => conteudo_leis
      end.

(** The [except] branch of [analisar_discrepancias]. *)
Definition analisar_except (e : exn) : M W pyval :=
  fun w => (Ok (PyList []), print C (py "Erro ao analisar: " ++ exn_str C e) w).

Definition analisar_discrepancias (txt : str) (citacoes : list citacao)
    : M W pyval :=
  conteudo_leis <- montar_conteudo_leis citacoes ;;
  try_except (analisar_try txt citacoes conteudo_leis) analisar_except.

Definition simplificar_texto (txt : str) : M W str :=
  resposta <- chain_invoke C (PromptSimplificar txt) ;;
  ret (strip resposta).

(** The loop of [processar_documento_completo] over the citations, with its
    two accumulators. *)
Fixpoint leis_loop (citacoes : list citacao)
    (leis_encontradas : list LeiEncontrada) (leis_unicas : gset str)
    : M W (list LeiEncontrada) :=
  match citacoes with
  | [] => ret leis_encontradas
  | cit :: rest =>
      match lei_busca_de (texto cit) with
      | Some lei_busca =>
          if bool_decide (lei_busca ∈ leis_unicas)
          then leis_loop rest leis_encontradas leis_unicas
          else
            conteudo <- buscar_conteudo_lei lei_busca ;;
            match conteudo with
            | Some c =>
                leis_loop rest (leis_encontradas ++ [entrada c])
                  ({[ lei_busca ]} ∪ leis_unicas)
            | None =>
                leis_loop rest leis_encontradas ({[ lei_busca ]} ∪ leis_unicas)
            end
      | None => leis_loop rest leis_encontradas leis_unicas
      end
  end.

Definition processar_documento_completo (txt : str) : M W Resultado :=
  let citacoes := extrair txt in
  discrepancias <- analisar_discrepancias txt citacoes ;;
  texto_simplificado <- simplificar_texto txt ;;
  leis_encontradas <- leis_loop citacoes [] ∅ ;;
  ret {| textoSimplificado := texto_simplificado;
         discrepancias := discrepancias;
         leisEncontradas := leis_encontradas;
         citacoesEncontradas := length citacoes |}.

(** The same loop, keeping next to [leis_encontradas] the fetched dicts its
    entries were built from (a record of the run; the source keeps only the
    entries). *)
Fixpoint leis_loop_conteudos (citacoes : list citacao)
    (conteudos : list ConteudoLei) (leis_unicas : gset str)
    : M W (list ConteudoLei) :=
  match citacoes with
  | [] => ret conteudos
  | cit :: rest =>
      match lei_busca_de (texto cit) with
      | Some lei_busca =>
          if bool_decide (lei_busca ∈ leis_unicas)
          then leis_loop_conteudos rest conteudos leis_unicas
          else
            conteudo <- buscar_conteudo_lei lei_busca ;;
            match conteudo with
            | Some c =>
                leis_loop_conteudos rest (conteudos ++ [c])
                  ({[ lei_busca ]} ∪ leis_unicas)
            | None =>
                leis_loop_conteudos rest conteudos
                  ({[ lei_busca ]} ∪ leis_unicas)
            end
      | None => leis_loop_conteudos rest conteudos leis_unicas
      end
  end.

End Analisador.

(** ** Notions the properties are stated with *)

(** ASCII upper-casing, to compare texts that differ in letter case only. *)
Definition ascii_upper (c : char) : char :=
  if (97 <=? c) && (c <=? 122) then c - 32 else c.

(** Substring test that ignores letter case. *)
Definition contains_ignorecase (needle hay : str) : bool :=
  contains (List.map sre_lower_unicode needle) (List.map sre_lower_unicode hay).

(** A continuation of the matcher is bounded by [total] when every end
    position it reports, called with [n] characters consumed and [s] left
    such that [n + length s = total], is at most [total]. *)
Definition bounded (total : nat) (k : nat -> str -> option nat) : Prop :=
  forall n s e, (n + length s = total)%nat -> k n s = Some e -> (e <= total)%nat.

(** Two continuations that cannot tell a text from its upper-cased form. *)
Definition same_cont (k' k : nat -> str -> option nat) : Prop :=
  forall n s, k' n (List.map ascii_upper s) = k n s.

(** The least number of characters a match of [r] has. *)
Fixpoint min_len (r : re) : nat :=
  match r with
  | Eps | Opt _ | Star _ => 0%nat
  | One _ | Plus _ => 1%nat
  | Seq r1 r2 => (min_len r1 + min_len r2)%nat
  | Alt r1 r2 => Nat.min (min_len r1) (min_len r2)
  end.

(** The HTTP statuses [raise_for_status] lets through. *)
Definition status_ok (r : Response) : bool :=
  negb ((400 <=? status_code r) && (status_code r <? 600)).

(** A JSON array whose items are all objects. *)
Definition is_array_of_records (v : pyval) : bool :=
  match v with
  | PyList l =>
      forallb (fun x => match x with PyDict _ => true | _ => false end) l
  | _ => false
  end.

(** The ways listed for [buscar_conteudo_lei] to find nothing: the search
    request fails (no connection, timeout), the page has no result
    container, the container has no link, the request for the link fails,
    or the container has no heading; and the two ways the structure of a
    page can be missing altogether, the parser rejecting the search page
    or the page of the law. *)
Inductive busca_falha {W} (C : Collaborators W) (lei_id : str) (w : W) : Prop :=
| falha_rede e w1 :
    requests_get C url_busca (Some lei_id) w = (Raise e, w1) ->
    busca_falha C lei_id w
| sem_resultado r w1 soup :
    requests_get C url_busca (Some lei_id) w = (Ok r, w1) ->
    BeautifulSoup C (text r) = Ok soup ->
    find_class (py "div") (py "item") soup = None ->
    busca_falha C lei_id w
| sem_link r w1 soup item :
    requests_get C url_busca (Some lei_id) w = (Ok r, w1) ->
    BeautifulSoup C (text r) = Ok soup ->
    find_class (py "div") (py "item") soup = Some item ->
    find (py "a") item = None ->
    busca_falha C lei_id w
| falha_rede_link r w1 soup item a e w2 :
    requests_get C url_busca (Some lei_id) w = (Ok r, w1) ->
    BeautifulSoup C (text r) = Ok soup ->
    find_class (py "div") (py "item") soup = Some item ->
    find (py "a") item = Some a ->
    requests_get C (tag_get a (py "href") []) None w1 = (Raise e, w2) ->
    busca_falha C lei_id w
| sem_titulo r w1 soup item :
    requests_get C url_busca (Some lei_id) w = (Ok r, w1) ->
    BeautifulSoup C (text r) = Ok soup ->
    find_class (py "div") (py "item") soup = Some item ->
    find (py "h3") item = None ->
    busca_falha C lei_id w
| busca_rejeitada r w1 e :
    requests_get C url_busca (Some lei_id) w = (Ok r, w1) ->
    BeautifulSoup C (text r) = Raise e ->
    busca_falha C lei_id w
| lei_rejeitada r w1 soup item a r2 w2 e :
    requests_get C url_busca (Some lei_id) w = (Ok r, w1) ->
    BeautifulSoup C (text r) = Ok soup ->
    find_class (py "div") (py "item") soup = Some item ->
    find (py "a") item = Some a ->
    requests_get C (tag_get a (py "href") []) None w1 = (Ok r2, w2) ->
    BeautifulSoup C (text r2) = Raise e ->
    busca_falha C lei_id w.

(** The ways listed for the analysis to fail once the prompt [p] is built
    and the world is in state [w]: the model call raises, the text handed
    to [json.loads] (the response stripped, its fence removed) is not JSON,
    or the parsed value gives no ['discrepancias'] (the key is missing, or
    the value is not an object at all). *)
Inductive analise_falha {W} (C : Collaborators W) (p : prompt) (w : W) : Prop :=
| falha_modelo e w1 :
    chain_invoke C p w = (Raise e, w1) ->
    analise_falha C p w
| json_invalido r w1 e :
    chain_invoke C p w = (Ok r, w1) ->
    json_loads C (sem_cerca (strip r)) = Raise e ->
    analise_falha C p w
| sem_chave r w1 v e :
    chain_invoke C p w = (Ok r, w1) ->
    json_loads C (sem_cerca (strip r)) = Ok v ->
    subscript v (py "discrepancias") = Raise e ->
    analise_falha C p w.

(** ** A sample world

    Scripted collaborators for the concrete runs below: the portal answers
    the search and the follow-up request as the scenario says, the model
    answers each of the two prompts as the scenario says, and the console
    keeps the lines printed. *)

Module Amostra.

Definition Mundo : Type := list str.

Record Cenario : Type := {
  resposta_busca : result Response;
  resposta_lei : result Response;
  resposta_analise : result str;
  resposta_simplificacao : result str
}.

Definition aspas (s : string) : str := [34] ++ py s ++ [34].

Definition pagina_busca : str :=
  py "<div class='item'><h3> Lei 8.078 </h3><a href='http://portal/l8078'>ver</a></div>".

Definition pagina_sem_titulo : str :=
  py "<div class='item'><a href='http://portal/l8078'>ver</a></div>".

(** A page that html.parser rejects (an unknown marked section). *)
Definition pagina_rejeitada : str := py "<p>Art. 1</p><![foo]>".

Definition resultado_busca : node :=
  Tag (py "div") [(py "class", py "item")]
    [Tag (py "h3") [] [NavigableString (py " Lei 8.078 ")];
     Tag (py "a") [(py "href", py "http://portal/l8078")]
       [NavigableString (py "ver")]].

Definition resultado_sem_titulo : node :=
  Tag (py "div") [(py "class", py "item")]
    [Tag (py "a") [(py "href", py "http://portal/l8078")]
       [NavigableString (py "ver")]].

(** The trees html.parser builds for the two result pages and its
    refusal of the third; any other text of the samples has no markup and
    is a single string. *)
Definition soup_de (t : str) : result node :=
  if str_eqb t pagina_busca then
    Ok (Tag (py "[document]") [] [resultado_busca])
  else if str_eqb t pagina_sem_titulo then
    Ok (Tag (py "[document]") [] [resultado_sem_titulo])
  else if str_eqb t pagina_rejeitada then Raise ParserRejectedMarkup
  else Ok (Tag (py "[document]") [] [NavigableString t]).

Definition json_nulo : str := py "{" ++ aspas "discrepancias" ++ py ": null}".
Definition json_um : str :=
  py "{" ++ aspas "discrepancias" ++ py ": [{" ++ aspas "tipo" ++ py ": "
  ++ aspas "ok" ++ py "}]}".
Definition json_vazio : str := py "{" ++ aspas "discrepancias" ++ py ": []}".

(** [json.loads] on the documents of the samples; the other texts used
    below are not JSON. *)
Definition loads (t : str) : result pyval :=
  if str_eqb t json_nulo then Ok (PyDict [(py "discrepancias", PyNone)])
  else if str_eqb t json_um then
    Ok (PyDict [(py "discrepancias",
                 PyList [PyDict [(py "tipo", PyStr (py "ok"))]])])
  else if str_eqb t json_vazio then Ok (PyDict [(py "discrepancias", PyList [])])
  else if str_eqb t (py "{}") then Ok (PyDict [])
  else Raise JSONDecodeError.

Definition nome_exn (e : exn) : str :=
  match e with
  | ConnectionError => py "ConnectionError"
  | Timeout => py "Timeout"
  | RequestException => py "RequestException"
  | HTTPError _ => py "HTTPError"
  | AttributeError => py "AttributeError"
  | KeyError k => k
  | TypeError => py "TypeError"
  | JSONDecodeError => py "JSONDecodeError"
  | ParserRejectedMarkup => py "ParserRejectedMarkup"
  | ModelError m => m
  end.

Definition colaboradores (c : Cenario) : Collaborators Mundo :=
  {| requests_get := fun _ q w =>
       (match q with Some _ => resposta_busca c | None => resposta_lei c end, w);
     BeautifulSoup := soup_de;
     chain_invoke := fun p w =>
       (match p with
        | PromptDiscrepancias _ _ _ => resposta_analise c
        | PromptSimplificar _ => resposta_simplificacao c
        end, w);
     json_loads := loads;
     json_dumps := fun cs => match cs with [] => py "[]" | _ => py "[...]" end;
     exn_str := nome_exn;
     print := fun linha w => w ++ [linha];
     unicode_isdecimal := ascii_isdecimal |}.

Definition ok200 (t : str) : result Response :=
  Ok {| status_code := 200; text := t |}.

(** The portal works and the model answers both prompts. *)
Definition tudo_certo : Cenario :=
  {| resposta_busca := ok200 pagina_busca;
     resposta_lei := ok200 (py "Art. 1 O presente codigo");
     resposta_analise := Ok json_vazio;
     resposta_simplificacao := Ok (py " texto simples ") |}.

(** The portal is unreachable. *)
Definition portal_fora : Cenario :=
  {| resposta_busca := Raise ConnectionError;
     resposta_lei := Raise ConnectionError;
     resposta_analise := Ok json_vazio;
     resposta_simplificacao := Ok (py "texto simples") |}.

(** The page of the law answers with status 404. *)
Definition lei_404 : Cenario :=
  {| resposta_busca := ok200 pagina_busca;
     resposta_lei := Ok {| status_code := 404; text := py "Not Found" |};
     resposta_analise := Ok json_vazio;
     resposta_simplificacao := Ok (py "texto simples") |}.

(** The model call of the analysis fails. *)
Definition modelo_falha : Cenario :=
  {| resposta_busca := ok200 pagina_busca;
     resposta_lei := ok200 (py "Art. 1");
     resposta_analise := Raise (ModelError (py "rate limit"));
     resposta_simplificacao := Ok (py "texto simples") |}.

(** The model answers the analysis with [{"discrepancias": null}]. *)
Definition modelo_nulo : Cenario :=
  {| resposta_busca := ok200 pagina_busca;
     resposta_lei := ok200 (py "Art. 1");
     resposta_analise := Ok json_nulo;
     resposta_simplificacao := Ok (py "texto simples") |}.

(** The model reports a discrepancy whatever the citations, and answers
    the simplification with blanks. *)
Definition modelo_inventa : Cenario :=
  {| resposta_busca := ok200 pagina_busca;
     resposta_lei := ok200 (py "Art. 1");
     resposta_analise := Ok json_um;
     resposta_simplificacao := Ok (py "   ") |}.

(** The result page has no heading. *)
Definition sem_titulo_na_pagina : Cenario :=
  {| resposta_busca := ok200 pagina_sem_titulo;
     resposta_lei := ok200 (py "Art. 1");
     resposta_analise := Ok json_vazio;
     resposta_simplificacao := Ok (py "texto simples") |}.

(** The model call of the simplification fails. *)
Definition simplificacao_falha : Cenario :=
  {| resposta_busca := ok200 pagina_busca;
     resposta_lei := ok200 (py "Art. 1");
     resposta_analise := Ok json_vazio;
     resposta_simplificacao := Raise (ModelError (py "rate limit")) |}.

End Amostra.

(** ** The service boundary of [api.py] *)

(** What the handler of [POST /api/processar] ends with: the dict it
    returns, or the [HTTPException] it raises. *)
Inductive resposta_api : Type :=
| Retorno (r : Resultado)
| HTTPException (codigo : N) (detail : str).

Section Servico.

Context {W : Type}.

(** [startup_event]: [analisador] is the module-level variable before the
    event, [getenv] the environment, [novo_analisador] the constructor
    [AnalisadorJuridico(api_key)], [imprime] the console and [str_e] the
    text of an exception. *)
Definition startup_event (analisador : option (Collaborators W))
    (getenv : str -> option str)
    (novo_analisador : str -> result (Collaborators W))
    (imprime : str -> W -> W) (str_e : exn -> str)
    : W -> option (Collaborators W) * W :=
  fun w =>
    match getenv (py "OPENAI_API_KEY") with
    | None | Some [] =>
        (analisador,
         imprime (py "⚠️ Erro ao inicializar analisador: OPENAI_API_KEY não configurada")
           (imprime (py "⚠️ AVISO: OPENAI_API_KEY não encontrada nas variáveis de ambiente.") w))
    | Some api_key =>
        match novo_analisador api_key with
        | Ok a => (Some a, imprime (py "✅ Analisador inicializado!") w)
        | Raise e =>
            (analisador,
             imprime (py "⚠️ Erro ao inicializar analisador: " ++ str_e e) w)
        end
    end.

(** [processar_documento], the handler of [POST /api/processar], on the
    [texto] of the request. *)
Definition processar_documento (analisador : option (Collaborators W))
    (documento_texto : str) : W -> resposta_api * W :=
  fun w =>
    match documento_texto with
    | [] => (HTTPException 400 (py "Texto não fornecido"), w)
    | _ :: _ =>
        match analisador with
        | None =>
            (HTTPException 500
               (py "Analisador não inicializado. Configure OPENAI_API_KEY"), w)
        | Some C =>
            match processar_documento_completo C documento_texto w with
            | (Ok resultado, w') => (Retorno resultado, w')
            | (Raise e, w') => (HTTPException 500 (exn_str C e), w')
            end
        end
    end.

End Servico.

(** ** The client of the service in [app.py] *)

Inductive nivel : Type := DEBUG | INFO | ERROR | EXCEPTION.

(** What [processar_documento_api] reaches outside itself: [requests.post]
    with the text as JSON body, [response.json()], the logger of the
    session, [str] of a value inside an f-string and of an exception. *)
Record ColaboradoresApp (W : Type) : Type := {
  requests_post : str -> str -> M W Response;
  response_json : Response -> result pyval;
  logger : nivel -> str -> W -> W;
  str_valor : pyval -> str;
  str_exn : exn -> str
}.
Arguments requests_post {W} _ _ _ _.
Arguments response_json {W} _ _.
Arguments logger {W} _ _ _ _.
Arguments str_valor {W} _ _.
Arguments str_exn {W} _ _.

(** [v.get(key, default)]: only a dict has the method. *)
Definition py_get (v : pyval) (key : str) (default : pyval) : result pyval :=
  match v with
  | PyDict d =>
      Ok match dict_get d key with
         | Some x => x
         | None => default
         end
  | _ => Raise AttributeError
  end.

(** [len(v)] *)
Definition py_len (v : pyval) : result nat :=
  match v with
  | PyList l => Ok (length l)
  | PyStr s => Ok (length s)
  | PyDict d => Ok (length d)
  | _ => Raise TypeError
  end.

(** [str(n)] of a natural number: its decimal digits. *)
Fixpoint digitos (fuel : nat) (n : N) (acc : str) : str :=
  match fuel with
  | O => acc
  | S fuel' =>
      let acc' := (48 + n mod 10) :: acc in
      if n <? 10 then acc' else digitos fuel' (n / 10) acc'
  end.

Definition str_int (n : nat) : str :=
  digitos (S (N.to_nat (N.log2 (N.of_nat n)))) (N.of_nat n) [].

Definition TIMEOUT_MSG : str :=
  py "Timeout ao processar documento - A API demorou muito para responder".

Section Cliente.

Context {W : Type} (A : ColaboradoresApp W).

Local Open Scope py_scope.

Definition log (n : nivel) (linha : str) : M W unit :=
  fun w => (Ok tt, logger A n linha w).

(** The [try] block of [processar_documento_api]. *)
Definition processar_documento_api_try (txt api_url : str) : M W pyval :=
  log INFO (py "Iniciando processamento de documento (tamanho: "
            ++ str_int (length txt) ++ py " caracteres)") ;;;
  log DEBUG (py "URL da API: " ++ api_url) ;;;
  response <- requests_post A (api_url ++ py "/api/processar") txt ;;
  raise_for_status response ;;;
  resultado <- lift (response_json A response) ;;
  citacoes <- lift (py_get resultado (py "citacoesEncontradas") (PyInt 0)) ;;
  log INFO (py "Documento processado com sucesso - " ++ str_valor A citacoes
            ++ py " citações encontradas") ;;;
  discrepancias <- lift (py_get resultado (py "discrepancias") (PyList [])) ;;
  n <- lift (py_len discrepancias) ;;
  log INFO (py "Discrepâncias encontradas: " ++ str_int n) ;;;
  ret resultado.

(** The four [except] clauses, in their order: a timeout, a connection
    error, any other exception of [requests] (an HTTP error status among
    them), anything else. *)
Definition processar_documento_api_except (e : exn)
    : M W (pyval * option str) :=
  match e with
  | Timeout =>
      log ERROR TIMEOUT_MSG ;;;
      ret (PyNone, Some TIMEOUT_MSG)
  | ConnectionError =>
      let erro := py "Erro de conexão com a API: " ++ str_exn A e in
      log ERROR erro ;;;
      ret (PyNone, Some erro)
  | RequestException | HTTPError _ =>
      let erro := py "Erro ao conectar com a API: " ++ str_exn A e in
      log ERROR erro ;;;
      ret (PyNone, Some erro)
  | _ =>
      log EXCEPTION (py "Erro inesperado ao processar documento") ;;;
      ret (PyNone, Some (py "Erro inesperado: " ++ str_exn A e))
  end.

(** [processar_documento_api]: the pair [(resultado, erro)]. *)
Definition processar_documento_api (txt api_url : str)
    : M W (pyval * option str) :=
  try_except
    (resultado <- processar_documento_api_try txt api_url ;;
     ret (resultado, None))
    processar_documento_api_except.

End Cliente.

(** The world when [processar_documento_api] sends its request: after the
    two opening lines of the log. *)
Definition mundo_do_pedido {W} (A : ColaboradoresApp W) (txt api_url : str)
    (w : W) : W :=
  logger A DEBUG (py "URL da API: " ++ api_url)
    (logger A INFO
       (py "Iniciando processamento de documento (tamanho: "
        ++ str_int (length txt) ++ py " caracteres)") w).

(** The value whose [len] the client logs: ['discrepancias'] of the
    answer, the empty list when the key is missing. *)
Definition discrepancias_de (d : list (str * pyval)) : pyval :=
  match dict_get d (py "discrepancias") with
  | Some x => x
  | None => PyList []
  end.

(** The line the [except] branch of [buscar_conteudo_lei] prints. *)
Definition linha_erro_busca {W} (C : Collaborators W) (lei_id : str) (e : exn)
    : str :=
  py "Erro ao buscar lei " ++ lei_id ++ py ": " ++ exn_str C e.

(** ** Further notions *)

(** Spans in text order from [lo] on, none overlapping the next, each of
    at least two characters. *)
Fixpoint em_ordem (lo : nat) (spans : list (nat * nat)) : Prop :=
  match spans with
  | [] => True
  | (a, b) :: rest => (lo <= a)%nat /\ (a + 2 <= b)%nat /\ em_ordem b rest
  end.

(** The number of line feeds of a text. *)
Definition linhas_extra (s : str) : nat := length (filter (fun c => c = 10) s).

(** The most one law adds to [conteudo_leis]: its header and 2000
    characters of content. *)
Definition parcela_maxima (l : str) : nat := (length l + 124 + 2000)%nat.

Section Tentativas.

Context {W : Type} (C : Collaborators W).

Local Open Scope py_scope.

(** The loop of [processar_documento_completo] once more, keeping for
    every call of [buscar_conteudo_lei] the law asked for and the answer
    (a record of the run; the source keeps only the entries). *)
Fixpoint leis_loop_tentativas (citacoes : list citacao)
    (tentativas : list (str * option ConteudoLei)) (leis_unicas : gset str)
    : M W (list (str * option ConteudoLei)) :=
  match citacoes with
  | [] => ret tentativas
  | cit :: rest =>
      match lei_busca_de (texto cit) with
      | Some lei_busca =>
          if bool_decide (lei_busca ∈ leis_unicas)
          then leis_loop_tentativas rest tentativas leis_unicas
          else
            conteudo <- buscar_conteudo_lei C lei_busca ;;
            leis_loop_tentativas rest (tentativas ++ [(lei_busca, conteudo)])
              ({[ lei_busca ]} ∪ leis_unicas)
      | None => leis_loop_tentativas rest tentativas leis_unicas
      end
  end.

End Tentativas.

(** ** More scenarios of the sample world *)

Module Cenarios.

(** The search answers with status 503. *)
Definition busca_503 : Amostra.Cenario :=
  {| Amostra.resposta_busca :=
       Ok {| status_code := 503; text := Amostra.pagina_busca |};
     Amostra.resposta_lei := Amostra.ok200 (py "Art. 1");
     Amostra.resposta_analise := Ok Amostra.json_vazio;
     Amostra.resposta_simplificacao := Ok (py "texto simples") |}.

(** The search page has no result. *)
Definition busca_vazia : Amostra.Cenario :=
  {| Amostra.resposta_busca := Amostra.ok200 (py "nenhum resultado");
     Amostra.resposta_lei := Amostra.ok200 (py "Art. 1");
     Amostra.resposta_analise := Ok Amostra.json_vazio;
     Amostra.resposta_simplificacao := Ok (py "texto simples") |}.

(** The model answers the analysis with a fenced JSON on one line. *)
Definition cerca_numa_linha : Amostra.Cenario :=
  {| Amostra.resposta_busca := Amostra.ok200 Amostra.pagina_busca;
     Amostra.resposta_lei := Amostra.ok200 (py "Art. 1");
     Amostra.resposta_analise :=
       Ok (py "```json" ++ Amostra.json_vazio ++ py "```");
     Amostra.resposta_simplificacao := Ok (py "texto simples") |}.

(** The page of the law is one that html.parser rejects. *)
Definition lei_rejeitada : Amostra.Cenario :=
  {| Amostra.resposta_busca := Amostra.ok200 Amostra.pagina_busca;
     Amostra.resposta_lei := Amostra.ok200 Amostra.pagina_rejeitada;
     Amostra.resposta_analise := Ok Amostra.json_vazio;
     Amostra.resposta_simplificacao := Ok (py "texto simples") |}.

End Cenarios.

(** ** A sample world for the client *)

Module AmostraApp.

Definition Mundo : Type := list (nivel * str).

Definition corpo_ok : pyval :=
  PyDict [(py "textoSimplificado", PyStr (py "texto simples"));
          (py "discrepancias", PyList []);
          (py "leisEncontradas", PyList []);
          (py "citacoesEncontradas", PyInt 0)].

(** The service answers every request with [resposta]; its body reads as
    JSON the way [corpo] says. *)
Definition colaboradores (resposta : result Response) (corpo : result pyval)
    : ColaboradoresApp Mundo :=
  {| requests_post := fun _ _ w => (resposta, w);
     response_json := fun _ => corpo;
     logger := fun n linha w => w ++ [(n, linha)];
     str_valor := fun v => match v with PyInt 0 => py "0" | _ => py "?" end;
     str_exn := Amostra.nome_exn |}.

Definition ok200 : result Response := Ok {| status_code := 200; text := py "{...}" |}.

Definition erro500 : result Response :=
  Ok {| status_code := 500; text := py "Internal Server Error" |}.

End AmostraApp.

(** * Properties *)

(** ** Strings *)

Lemma startswith_app (p q s : str) :
  startswith (p ++ q) s = true -> startswith p s = true.
Proof.
  revert s; induction p as [|a p IH]; intros s H; [reflexivity|].
  destruct s as [|b s]; simpl in *; [discriminate|].
  apply andb_true_iff in H as [Hab H].
  rewrite Hab; simpl; auto.
Qed.

Lemma contains_app (p q s : str) :
  contains (p ++ q) s = true -> contains p s = true.
Proof.
  induction s as [|b s IH]; simpl; intros H.
  - apply orb_true_iff in H as [H|H]; [|discriminate].
    apply startswith_app in H. rewrite H. reflexivity.
  - apply orb_true_iff in H as [H|H].
    + apply startswith_app in H. rewrite H. reflexivity.
    + rewrite (IH H). apply orb_true_r.
Qed.

Lemma contains_codigo_civil (t : str) :
  contains (py "Código Civil") t = true -> contains (py "Código") t = true.
Proof. apply (contains_app (py "Código") (py " Civil")). Qed.

Lemma length_upto (n : nat) (s : str) : (length (upto n s) <= n)%nat.
Proof. unfold upto. rewrite length_take. lia. Qed.

(** ** The two mappings from citation texts to laws *)

(** C1, as the code has it: in [analisar_discrepancias] a citation text that
    holds "Lei" keeps its own text as the law; otherwise one that holds
    "CDC" gives the fixed law 'Lei 8.078/90'; otherwise one that holds
    "Código Civil" or "CC" gives the fixed law 'Lei 10.406/2002', which is
    another law than the first.  The rules are tried in this order, so the
    texts "CDC", "Código Civil" and "CC" themselves get these laws. *)
Theorem lei_identificada_regras (t : str) :
  (contains (py "Lei") t = true -> lei_identificada t = Some t)
  /\ (contains (py "Lei") t = false -> contains (py "CDC") t = true ->
      lei_identificada t = Some LEI_CDC)
  /\ (contains (py "Lei") t = false -> contains (py "CDC") t = false ->
      contains (py "Código Civil") t = true \/ contains (py "CC") t = true ->
      lei_identificada t = Some LEI_CC)
  /\ lei_identificada (py "CDC") = Some LEI_CDC
  /\ lei_identificada (py "Código Civil") = Some LEI_CC
  /\ lei_identificada (py "CC") = Some LEI_CC
  /\ LEI_CDC <> LEI_CC.
Proof.
  unfold lei_identificada.
  split; [|split; [|split]].
  - intros ->. reflexivity.
  - intros -> ->. reflexivity.
  - intros -> -> [-> | ->]; [reflexivity | rewrite orb_true_r; reflexivity].
  - repeat split; try reflexivity. vm_compute. discriminate.
Qed.

Lemma lei_identificada_regras_witness :
  lei_identificada (py "Lei 9.099/95") = Some (py "Lei 9.099/95")
  /\ lei_identificada (py "o CDC") = Some LEI_CDC
  /\ lei_identificada (py "vide CC") = Some LEI_CC.
Proof.
  split; [|split].
  - apply (proj1 (lei_identificada_regras (py "Lei 9.099/95"))). reflexivity.
  - apply (proj1 (proj2 (lei_identificada_regras (py "o CDC")))); reflexivity.
  - apply (proj1 (proj2 (proj2 (lei_identificada_regras (py "vide CC")))));
      [reflexivity | reflexivity | right; reflexivity].
Defined.

(** C1 fails at the full name of the consumer code: it holds none of "Lei",
    "CDC", "Código Civil", "CC", so the analysis gives it no law at all,
    while "CDC" gets 'Lei 8.078/90'.  And a text that holds "CDC" next to
    "Lei" keeps its own text, the first rule being tried first. *)
Lemma codigo_consumidor_sem_lei :
  lei_identificada (py "Código de Defesa do Consumidor") = None
  /\ lei_identificada (py "CDC") = Some LEI_CDC
  /\ lei_identificada (py "Lei do CDC") = Some (py "Lei do CDC").
Proof. repeat split; reflexivity. Qed.

(** C5, as the code has it: the mapping of the analysis and the mapping of
    [processar_documento_completo] agree on a common core (a text with
    "CDC" and without "Lei"; a text with "Código Civil" and without "Lei"
    and "CDC"; a text with "Lei" and without "CDC" and "Código Civil") and
    differ outside it: a text only the analysis takes holds "CC" and gets
    'Lei 10.406/2002', a text only the orchestration takes holds "Código"
    and keeps its own text. *)
Theorem mapeamentos_nucleo_comum (t : str) :
  (contains (py "CDC") t = true -> contains (py "Lei") t = false ->
   lei_identificada t = Some LEI_CDC /\ lei_busca_de t = Some LEI_CDC)
  /\ (contains (py "Código Civil") t = true -> contains (py "Lei") t = false ->
      contains (py "CDC") t = false ->
      lei_identificada t = Some LEI_CC /\ lei_busca_de t = Some LEI_CC)
  /\ (contains (py "Lei") t = true -> contains (py "CDC") t = false ->
      contains (py "Código Civil") t = false ->
      lei_identificada t = Some t /\ lei_busca_de t = Some t)
  /\ (forall l, lei_identificada t = Some l -> lei_busca_de t = None ->
      contains (py "CC") t = true /\ l = LEI_CC)
  /\ (forall l, lei_identificada t = None -> lei_busca_de t = Some l ->
      contains (py "Código") t = true /\ l = t).
Proof.
  unfold lei_identificada, lei_busca_de.
  split; [|split; [|split; [|split]]].
  - intros -> ->. rewrite orb_true_r. auto.
  - intros Hcc -> ->. rewrite Hcc, (contains_codigo_civil _ Hcc). auto.
  - intros -> -> ->. auto.
  - intros l.
    destruct (contains (py "Lei") t); [discriminate 2|].
    destruct (contains (py "CDC") t); [discriminate 2|].
    destruct (contains (py "Código Civil") t) eqn:Hcc.
    + rewrite (contains_codigo_civil _ Hcc). discriminate 2.
    + simpl. destruct (contains (py "CC") t); [|discriminate 1].
      intros [= <-] _. auto.
  - intros l.
    destruct (contains (py "Lei") t); [discriminate 1|].
    destruct (contains (py "CDC") t); [discriminate 1|].
    destruct (contains (py "Código Civil") t); [discriminate 1|].
    simpl. destruct (contains (py "CC") t); [discriminate 1|].
    destruct (contains (py "Código") t); [|discriminate 2].
    intros _ [= <-]. auto.
Qed.

Lemma mapeamentos_nucleo_comum_witness :
  (lei_identificada (py "CDC") = Some LEI_CDC
   /\ lei_busca_de (py "CDC") = Some LEI_CDC)
  /\ (lei_identificada (py "Código Civil") = Some LEI_CC
      /\ lei_busca_de (py "Código Civil") = Some LEI_CC)
  /\ (lei_identificada (py "Lei 8.078/90") = Some (py "Lei 8.078/90")
      /\ lei_busca_de (py "Lei 8.078/90") = Some (py "Lei 8.078/90"))
  /\ (contains (py "CC") (py "CC") = true /\ LEI_CC = LEI_CC)
  /\ (contains (py "Código") (py "Código Penal") = true
      /\ py "Código Penal" = py "Código Penal").
Proof.
  split; [|split; [|split; [|split]]].
  - apply (proj1 (mapeamentos_nucleo_comum (py "CDC"))); reflexivity.
  - apply (proj1 (proj2 (mapeamentos_nucleo_comum (py "Código Civil"))));
      reflexivity.
  - apply (proj1 (proj2 (proj2 (mapeamentos_nucleo_comum (py "Lei 8.078/90")))));
      reflexivity.
  - apply (proj1 (proj2 (proj2 (proj2 (mapeamentos_nucleo_comum (py "CC")))))
             LEI_CC); reflexivity.
  - apply (proj2 (proj2 (proj2 (proj2 (mapeamentos_nucleo_comum (py "Código Penal")))))
             (py "Código Penal")); reflexivity.
Defined.

(** C5 fails at "CC", which the analysis maps to 'Lei 10.406/2002' and the
    orchestration leaves out, and at "Código Penal", which the orchestration
    keeps under its own text and the analysis leaves out. *)
Lemma mapeamentos_divergem :
  lei_identificada (py "CC") = Some LEI_CC
  /\ lei_busca_de (py "CC") = None
  /\ lei_identificada (py "Código Penal") = None
  /\ lei_busca_de (py "Código Penal") = Some (py "Código Penal").
Proof. repeat split; reflexivity. Qed.

(** ** The matcher on sample texts

    The spans and kinds [re.finditer] gives for the six patterns on two
    texts, the second with the characters that only case folding or the
    Unicode classes accept (dotless i, dotted capital I, long s, no-break
    and ideographic spaces). *)

Example extrair_amostra :
  List.map (fun c => (posicao c, tipo c))
    (extrair_citacoes_legais ascii_isdecimal
       (py "art. 6º da LEI nº 8.078/90 (CDC), Código  Civil, lei 9, Lei 10.406/2002 artigo 421 CC cc"))
  = [((11, 26), tipo_artigo); ((49, 54), tipo_artigo); ((56, 71), tipo_lei);
     ((72, 82), tipo_artigo); ((0, 7), tipo_artigo); ((34, 47), tipo_artigo);
     ((28, 31), tipo_artigo); ((83, 85), tipo_artigo);
     ((86, 88), tipo_artigo)]%nat.
Proof. reflexivity. Qed.

Example extrair_amostra_unicode :
  List.map (fun c => (posicao c, tipo c))
    (extrair_citacoes_legais ascii_isdecimal
       [108; 101; 305; 32; 53; 32; 76; 69; 304; 32; 54; 32; 99; 111; 110; 383;
        117; 109; 105; 100; 111; 114; 32; 99; 211; 100; 105; 103; 111; 32; 112;
        101; 110; 97; 108; 32; 67; 211; 68; 73; 71; 79; 32; 68; 69; 32; 68; 69;
        70; 69; 383; 65; 32; 68; 79; 32; 67; 79; 78; 383; 85; 77; 73; 68; 79;
        82; 32; 97; 114; 116; 305; 103; 111; 160; 55; 170; 32; 65; 82; 84; 46;
        56; 186; 32; 76; 101; 105; 8195; 78; 186; 12288; 57; 46; 45; 55; 32;
        108; 101; 105; 32; 49; 46; 47; 45; 50; 32; 108; 101; 105; 32; 49; 46;
        50; 46; 51; 32; 108; 101; 105; 32; 110; 32; 110; 32; 53; 32; 99; 99;
        99; 100; 99; 99; 100; 99; 32; 76; 101; 105; 32; 78; 186; 51; 32; 76;
        101; 105; 32; 110; 176; 32; 52])
  = [((0, 5), tipo_artigo); ((6, 11), tipo_artigo); ((84, 95), tipo_lei);
     ((96, 105), tipo_artigo); ((106, 113), tipo_artigo);
     ((135, 142), tipo_lei); ((67, 76), tipo_artigo); ((77, 83), tipo_artigo);
     ((23, 35), tipo_artigo); ((36, 66), tipo_artigo);
     ((128, 131), tipo_artigo); ((131, 134), tipo_artigo);
     ((126, 128), tipo_artigo); ((130, 132), tipo_artigo)]%nat.
Proof. reflexivity. Qed.

Example sem_cerca_amostra :
  sem_cerca (strip (py "
```json
{}
```
")) = py "{}".
Proof. reflexivity. Qed.

(** ** The matcher stays inside the text *)

Section MatcherBounds.

Variable nd : char -> bool.

Local Open Scope nat_scope.

Lemma repeat_one_bounded (p : char -> bool) (total : nat) k :
  bounded total k -> bounded total (fun n s => repeat_one p s n k).
Proof.
  intros Hk n s; revert n.
  induction s as [|c s IH]; intros n e Hn H; simpl in H.
  - eapply Hk; eauto.
  - destruct (p c).
    + destruct (repeat_one p s (S n) k) eqn:Hr.
      * injection H as <-. eapply IH; [|exact Hr]. simpl in Hn; lia.
      * eapply Hk; eauto.
    + eapply Hk; eauto.
Qed.

Lemma run_bounded (r : re) (total : nat) k :
  bounded total k -> bounded total (fun n s => run nd r s n k).
Proof.
  revert k; induction r as [|a|a|a|a|r1 IH1 r2 IH2|r1 IH1 r2 IH2];
    intros k Hk n s e Hn H; simpl in H.
  - eapply Hk; eauto.
  - destruct s as [|c s]; [discriminate|].
    destruct (test nd a c); [|discriminate].
    eapply Hk; [|exact H]. simpl in Hn; lia.
  - destruct s as [|c s]; [eapply Hk; eauto|].
    destruct (test nd a c); [|eapply Hk; eauto].
    destruct (k (S n) s) eqn:Hks.
    + injection H as <-. eapply Hk; [|exact Hks]. simpl in Hn; lia.
    + eapply Hk; eauto.
  - eapply (repeat_one_bounded (test nd a)); eauto.
  - destruct s as [|c s]; [discriminate|].
    destruct (test nd a c); [|discriminate].
    eapply (repeat_one_bounded (test nd a)); [exact Hk| |exact H].
    simpl in Hn; lia.
  - eapply (IH1 (fun n' s' => run nd r2 s' n' k)); eauto.
  - destruct (run nd r1 s n k) eqn:H1.
    + injection H as <-. eapply IH1; eauto.
    + eapply IH2; eauto.
Qed.

Lemma match_here_bound (r : re) (s : str) (len : nat) :
  match_here nd r s = Some len -> len <= length s.
Proof.
  intros H.
  apply (run_bounded r (length s) (fun n _ => Some n)) with (n := 0) (s := s);
    [|reflexivity|exact H].
  intros n s' e Hn [= <-]. lia.
Qed.

(** The end position of a match comes from a call of the continuation
    made after at least [min_len r] more characters. *)
Lemma repeat_one_reaches (p : char -> bool) (s : str) (n : nat) k (e : nat) :
  repeat_one p s n k = Some e -> exists n' s', n <= n' /\ k n' s' = Some e.
Proof.
  revert n; induction s as [|c s IH]; intros n H; simpl in H.
  - eauto.
  - destruct (p c); [|eauto].
    destruct (repeat_one p s (S n) k) eqn:Hr; [|eauto].
    injection H as <-. apply IH in Hr as (n' & s' & Hn & Hk).
    exists n', s'. split; [lia|exact Hk].
Qed.

Lemma run_reaches (r : re) (s : str) (n : nat) k (e : nat) :
  run nd r s n k = Some e ->
  exists n' s', n + min_len r <= n' /\ k n' s' = Some e.
Proof.
  revert s n k; induction r as [|a|a|a|a|r1 IH1 r2 IH2|r1 IH1 r2 IH2];
    intros s n k H; simpl in H; simpl min_len.
  - exists n, s. split; [lia|exact H].
  - destruct s as [|c s]; [discriminate|].
    destruct (test nd a c); [|discriminate].
    exists (S n), s. split; [lia|exact H].
  - destruct s as [|c s]; [exists n, []; split; [lia|exact H]|].
    destruct (test nd a c); [|exists n, (c :: s); split; [lia|exact H]].
    destruct (k (S n) s) eqn:Hk.
    + injection H as <-. exists (S n), s. split; [lia|exact Hk].
    + exists n, (c :: s). split; [lia|exact H].
  - apply repeat_one_reaches in H as (n' & s' & Hn & Hk).
    exists n', s'. split; [lia|exact Hk].
  - destruct s as [|c s]; [discriminate|].
    destruct (test nd a c); [|discriminate].
    apply repeat_one_reaches in H as (n' & s' & Hn & Hk).
    exists n', s'. split; [lia|exact Hk].
  - apply IH1 in H as (n1 & s1 & Hn1 & H).
    apply IH2 in H as (n2 & s2 & Hn2 & H).
    exists n2, s2. split; [lia|exact H].
  - destruct (run nd r1 s n k) eqn:H1.
    + injection H as <-. apply IH1 in H1 as (n' & s' & Hn & Hk).
      exists n', s'. split; [lia|exact Hk].
    + apply IH2 in H as (n' & s' & Hn & Hk).
      exists n', s'. split; [lia|exact Hk].
Qed.

(** Each pattern of [padroes] needs at least two characters, so the scan
    never meets an empty match. *)
Lemma padroes_consomem (padrao : re) (s : str) (len : nat) :
  In padrao padroes -> match_here nd padrao s = Some len -> 2 <= len.
Proof.
  unfold match_here. intros Hin H.
  apply run_reaches in H as (n' & s' & Hn & [= <-]).
  assert (2 <= min_len padrao); [|lia].
  simpl in Hin.
  destruct Hin as [<-|[<-|[<-|[<-|[<-|[<-|[]]]]]]]; vm_compute; lia.
Qed.

Lemma scan_spans (r : re) (whole s : str) (pos skip : nat) (m : Match) :
  In m (scan nd r whole s pos skip) ->
  m_string m = whole
  /\ pos <= fst (m_span m) <= snd (m_span m)
  /\ snd (m_span m) <= pos + length s.
Proof.
  revert pos skip; induction s as [|c s IH]; intros pos skip Hin; simpl in Hin.
  - destruct Hin.
  - destruct skip as [|skip].
    + destruct (match_here nd r (c :: s)) as [len|] eqn:Hm.
      * destruct Hin as [<- | Hin].
        -- apply match_here_bound in Hm. simpl in *.
           split; [reflexivity|]. lia.
        -- apply IH in Hin. simpl. intuition lia.
      * apply IH in Hin. simpl. intuition lia.
    + apply IH in Hin. simpl. intuition lia.
Qed.

Lemma finditer_spans (r : re) (txt : str) (m : Match) :
  In m (finditer nd r txt) ->
  m_string m = txt
  /\ fst (m_span m) <= snd (m_span m) <= length txt.
Proof.
  intros Hin. apply scan_spans in Hin. simpl in Hin. intuition lia.
Qed.

Lemma extrair_inv (txt : str) (c : citacao) :
  In c (extrair_citacoes_legais nd txt) ->
  exists padrao m,
    In padrao padroes /\ In m (finditer nd padrao txt)
    /\ c = citacao_of_match m.
Proof.
  unfold extrair_citacoes_legais. intros Hin.
  apply in_flat_map in Hin as (padrao & Hp & Hin).
  apply in_map_iff in Hin as (m & <- & Hm).
  eauto.
Qed.

End MatcherBounds.

(** C9: every citation [extrair_citacoes_legais] returns has a span
    [(start, end)] with [0 <= start <= end <= len(texto)] (positions are
    natural numbers, so the first inequality is in the type) and its text
    is the slice of the input between them. *)
Theorem citacao_dentro_do_texto (nd : char -> bool) (txt : str) (c : citacao) :
  In c (extrair_citacoes_legais nd txt) ->
  (fst (posicao c) <= snd (posicao c) <= length txt)%nat
  /\ texto c = slice txt (fst (posicao c)) (snd (posicao c)).
Proof.
  intros Hin.
  apply extrair_inv in Hin as (padrao & m & _ & Hm & ->).
  apply finditer_spans in Hm as [Hs Hb].
  split; [exact Hb|].
  unfold citacao_of_match, group0; simpl. rewrite Hs. reflexivity.
Qed.

Lemma citacao_dentro_do_texto_witness :
  (3 <= 6 <= length (py "no CDC."))%nat
  /\ py "CDC" = slice (py "no CDC.") 3 6.
Proof.
  apply (citacao_dentro_do_texto ascii_isdecimal (py "no CDC.")
           {| texto := py "CDC"; posicao := (3, 6)%nat; tipo := tipo_artigo |}).
  vm_compute. left. reflexivity.
Defined.

(** ** Letter case *)

Ltac case_N :=
  repeat
    (match goal with
     | |- context [N.leb ?a ?b] => destruct (N.leb_spec a b)
     | |- context [N.ltb ?a ?b] => destruct (N.ltb_spec a b)
     | |- context [N.eqb ?a ?b] => destruct (N.eqb_spec a b)
     end; simpl; try lia; try reflexivity).

Lemma lower_ascii_upper (c : char) :
  sre_lower_unicode (ascii_upper c) = sre_lower_unicode c.
Proof.
  unfold ascii_upper.
  destruct (N.leb_spec 97 c); simpl; [|reflexivity].
  destruct (N.leb_spec c 122); simpl; [|reflexivity].
  unfold sre_lower_unicode. case_N.
Qed.

Lemma isspace_ascii_upper (c : char) : isspace (ascii_upper c) = isspace c.
Proof.
  unfold ascii_upper.
  destruct (N.leb_spec 97 c); simpl; [|reflexivity].
  destruct (N.leb_spec c 122); simpl; [|reflexivity].
  unfold isspace. case_N.
Qed.

Lemma ascii_letter_iscased (p : char) :
  (65 <= p <= 90 \/ 97 <= p <= 122) -> iscased p = true.
Proof.
  intros H. unfold iscased, sre_lower_unicode, sre_upper_unicode.
  destruct H as [H|H]; case_N.
Qed.

Lemma literal_ignore_ascii_upper (p c : char) :
  literal_ignore p (ascii_upper c) = literal_ignore p c.
Proof.
  unfold literal_ignore.
  destruct (iscased p) eqn:Hp.
  - rewrite lower_ascii_upper. reflexivity.
  - unfold ascii_upper.
    destruct (N.leb_spec 97 c); simpl; [|reflexivity].
    destruct (N.leb_spec c 122); simpl; [|reflexivity].
    destruct (N.eqb_spec (c - 32) p) as [E|E];
      destruct (N.eqb_spec c p) as [E'|E']; try reflexivity.
    + rewrite ascii_letter_iscased in Hp by lia. discriminate.
    + rewrite ascii_letter_iscased in Hp by lia. discriminate.
Qed.

Section CaseInsensitive.

Variable nd : char -> bool.
Hypothesis nd_upper : forall c, nd (ascii_upper c) = nd c.

Lemma test_ascii_upper (a : atom) (c : char) :
  test nd a (ascii_upper c) = test nd a c.
Proof.
  destruct a as [p| | |ps]; simpl.
  - apply literal_ignore_ascii_upper.
  - apply isspace_ascii_upper.
  - apply nd_upper.
  - induction ps as [|p ps IH]; simpl; [reflexivity|].
    rewrite literal_ignore_ascii_upper, IH. reflexivity.
Qed.

Lemma repeat_one_upper (a : atom) (s : str) (n : nat) k' k :
  same_cont k' k ->
  repeat_one (test nd a) (List.map ascii_upper s) n k'
  = repeat_one (test nd a) s n k.
Proof.
  intros Hk; revert n; induction s as [|c s IH]; intros n; simpl.
  - apply (Hk n []).
  - pose proof (Hk n (c :: s)) as Hc; simpl in Hc.
    rewrite test_ascii_upper, IH, Hc. reflexivity.
Qed.

Lemma run_upper (r : re) (s : str) (n : nat) k' k :
  same_cont k' k ->
  run nd r (List.map ascii_upper s) n k' = run nd r s n k.
Proof.
  revert s n k' k;
    induction r as [|a|a|a|a|r1 IH1 r2 IH2|r1 IH1 r2 IH2];
    intros s n k' k Hk; simpl.
  - apply Hk.
  - destruct s as [|c s]; simpl; [reflexivity|].
    rewrite test_ascii_upper, Hk. reflexivity.
  - destruct s as [|c s]; simpl; [apply (Hk n [])|].
    pose proof (Hk n (c :: s)) as Hc; simpl in Hc.
    rewrite test_ascii_upper, Hk, Hc. reflexivity.
  - apply repeat_one_upper, Hk.
  - destruct s as [|c s]; simpl; [reflexivity|].
    rewrite test_ascii_upper, (repeat_one_upper a s (S n) k' k Hk).
    reflexivity.
  - apply IH1. intros n' s'. apply IH2, Hk.
  - rewrite (IH1 s n k' k Hk), (IH2 s n k' k Hk). reflexivity.
Qed.

Lemma match_here_upper (r : re) (s : str) :
  match_here nd r (List.map ascii_upper s) = match_here nd r s.
Proof. apply run_upper. intros n s'. reflexivity. Qed.

Lemma scan_upper (r : re) (whole' whole s : str) (pos skip : nat) :
  List.map m_span (scan nd r whole' (List.map ascii_upper s) pos skip)
  = List.map m_span (scan nd r whole s pos skip).
Proof.
  revert pos skip; induction s as [|c s IH]; intros pos skip; simpl;
    [reflexivity|].
  destruct skip as [|skip]; [|apply IH].
  change (ascii_upper c :: List.map ascii_upper s)
    with (List.map ascii_upper (c :: s)).
  rewrite match_here_upper.
  destruct (match_here nd r (c :: s)); simpl; rewrite IH; reflexivity.
Qed.

Lemma posicoes_flat_map (txt : str) (ps : list re) :
  List.map posicao
    (flat_map (fun padrao =>
                 List.map citacao_of_match (finditer nd padrao txt)) ps)
  = flat_map (fun padrao => List.map m_span (finditer nd padrao txt)) ps.
Proof.
  induction ps as [|p ps IH]; simpl; [reflexivity|].
  rewrite List.map_app, IH, List.map_map. reflexivity.
Qed.

Lemma extrair_upper (txt : str) :
  List.map posicao (extrair_citacoes_legais nd (List.map ascii_upper txt))
  = List.map posicao (extrair_citacoes_legais nd txt).
Proof.
  unfold extrair_citacoes_legais. rewrite !posicoes_flat_map.
  induction padroes as [|p ps IH]; simpl; [reflexivity|].
  rewrite IH. f_equal. apply scan_upper.
Qed.

End CaseInsensitive.

Lemma ascii_isdecimal_upper (c : char) :
  ascii_isdecimal (ascii_upper c) = ascii_isdecimal c.
Proof.
  unfold ascii_upper.
  destruct (N.leb_spec 97 c); simpl; [|reflexivity].
  destruct (N.leb_spec c 122); simpl; [|reflexivity].
  unfold ascii_isdecimal. case_N.
Qed.




(** ** Statute retrieval *)

Section Busca.

Context {W : Type} (C : Collaborators W).

Lemma buscar_nunca_levanta (lei_id : str) (w : W) :
  exists r w', buscar_conteudo_lei C lei_id w = (Ok r, w').
Proof.
  unfold buscar_conteudo_lei, try_except.
  destruct (buscar_conteudo_lei_try C lei_id w) as [[r|e] w'];
    [eauto | unfold buscar_except; eauto].
Qed.

(** A dict comes back only when every step of the [try] block went
    through, and then it is built from what the steps found. *)
Lemma buscar_some_inv (lei_id : str) (w w' : W) (c : ConteudoLei) :
  buscar_conteudo_lei C lei_id w = (Ok (Some c), w') ->
  exists r w1 soup item a r2 soup2 h3,
    requests_get C url_busca (Some lei_id) w = (Ok r, w1)
    /\ status_ok r = true
    /\ BeautifulSoup C (text r) = Ok soup
    /\ find_class (py "div") (py "item") soup = Some item
    /\ find (py "a") item = Some a
    /\ tag_get a (py "href") [] <> []
    /\ requests_get C (tag_get a (py "href") []) None w1 = (Ok r2, w')
    /\ BeautifulSoup C (text r2) = Ok soup2
    /\ find (py "h3") item = Some h3
    /\ c = {| c_lei := lei_id;
              c_titulo := get_text_strip h3;
              c_link := tag_get a (py "href") [];
              c_conteudo := upto 5000 (get_text soup2) |}.
Proof.
  intros H.
  unfold buscar_conteudo_lei, try_except, buscar_conteudo_lei_try, bind,
    buscar_except, raise_for_status, raise, ret, lift in H.
  destruct (requests_get C url_busca (Some lei_id) w) as [[r|e] w1] eqn:H1;
    [|discriminate].
  destruct ((400 <=? status_code r) && (status_code r <? 600)) eqn:Hs;
    [discriminate|].
  destruct (BeautifulSoup C (text r)) as [soup|e] eqn:Hp; [|discriminate].
  destruct (find_class (py "div") (py "item") soup) as [item|] eqn:H2;
    [|discriminate].
  destruct (find (py "a") item) as [a|] eqn:H3; [|discriminate].
  destruct (tag_get a (py "href") []) as [|h href] eqn:Hhref; [discriminate|].
  destruct (requests_get C (h :: href) None w1) as [[r2|e] w2] eqn:H4;
    [|discriminate].
  destruct (BeautifulSoup C (text r2)) as [soup2|e] eqn:Hp2; [|discriminate].
  destruct (find (py "h3") item) as [h3|] eqn:H5; [|discriminate].
  injection H as <- <-.
  exists r, w1, soup, item, a, r2, soup2, h3. rewrite Hhref.
  unfold status_ok. rewrite Hs.
  repeat split; auto; discriminate.
Qed.

Lemma buscar_some_lei (lei_id : str) (w w' : W) (c : ConteudoLei) :
  buscar_conteudo_lei C lei_id w = (Ok (Some c), w') -> c_lei c = lei_id.
Proof.
  intros H.
  apply buscar_some_inv in H as (r & w1 & soup & item & a & r2 & soup2 & h3 & H).
  destruct H as (_ & _ & _ & _ & _ & _ & _ & _ & _ & ->). reflexivity.
Qed.

(** C4: [buscar_conteudo_lei] never raises; it returns [None] when the
    search request fails or times out, when the page has no result
    container, when the container has no link, when the request for the
    link fails or times out, when the container has no heading, and when
    the parser rejects one of the two pages; and the content of a dict it
    returns has at most 5000 characters. *)
Theorem buscar_ausente_sem_excecao (lei_id : str) (w : W) :
  (exists r w', buscar_conteudo_lei C lei_id w = (Ok r, w'))
  /\ (busca_falha C lei_id w ->
      exists w', buscar_conteudo_lei C lei_id w = (Ok None, w'))
  /\ (forall c w', buscar_conteudo_lei C lei_id w = (Ok (Some c), w') ->
      (length (c_conteudo c) <= 5000)%nat).
Proof.
  split; [apply buscar_nunca_levanta|split].
  - intros Hf.
    destruct (buscar_nunca_levanta lei_id w) as ([c|] & w' & H); [|eauto].
    exfalso.
    apply buscar_some_inv in H
      as (r & w1 & soup & item & a & r2 & soup2 & h3
          & H1 & _ & Hp & H2 & H3 & _ & H4 & Hp2 & H5 & _).
    destruct Hf as [e v1 F1
                   | r' v1 soup' F1 Fp F2
                   | r' v1 soup' item' F1 Fp F2 F3
                   | r' v1 soup' item' a' e v2 F1 Fp F2 F3 F4
                   | r' v1 soup' item' F1 Fp F2 F3
                   | r' v1 e F1 Fp
                   | r' v1 soup' item' a' r2' v2 e F1 Fp F2 F3 F4 Fp2];
      rewrite H1 in F1; try discriminate;
      injection F1 as <- <-; rewrite Hp in Fp; try discriminate;
      injection Fp as <-; rewrite H2 in F2; try discriminate;
      injection F2 as <-.
    + rewrite H3 in F3. discriminate.
    + rewrite H3 in F3. injection F3 as <-. rewrite H4 in F4. discriminate.
    + rewrite H5 in F3. discriminate.
    + rewrite H3 in F3. injection F3 as <-. rewrite H4 in F4.
      injection F4 as <- <-. rewrite Hp2 in Fp2. discriminate.
  - intros c w' H.
    apply buscar_some_inv in H
      as (r & w1 & soup & item & a & r2 & soup2 & h3 & H).
    destruct H as (_ & _ & _ & _ & _ & _ & _ & _ & _ & ->). cbn [c_conteudo].
    apply length_upto.
Qed.


End Busca.

Lemma buscar_ausente_sem_excecao_witness :
  (exists w',
      buscar_conteudo_lei (Amostra.colaboradores Amostra.portal_fora)
        (py "Lei 8.078/90") [] = (Ok None, w'))
  /\ (exists w',
        buscar_conteudo_lei (Amostra.colaboradores Amostra.sem_titulo_na_pagina)
          (py "Lei 8.078/90") [] = (Ok None, w'))
  /\ (length (py "Art. 1 O presente codigo") <= 5000)%nat.
Proof.
  split; [|split].
  - apply (proj1 (proj2 (buscar_ausente_sem_excecao
                           (Amostra.colaboradores Amostra.portal_fora)
                           (py "Lei 8.078/90") []))).
    apply (falha_rede _ _ _ ConnectionError []). reflexivity.
  - apply (proj1 (proj2 (buscar_ausente_sem_excecao
                           (Amostra.colaboradores Amostra.sem_titulo_na_pagina)
                           (py "Lei 8.078/90") []))).
    apply (sem_titulo _ _ _
             {| status_code := 200; text := Amostra.pagina_sem_titulo |} []
             (Tag (py "[document]") [] [Amostra.resultado_sem_titulo])
             Amostra.resultado_sem_titulo);
      reflexivity.
  - apply (proj2 (proj2 (buscar_ausente_sem_excecao
                           (Amostra.colaboradores Amostra.tudo_certo)
                           (py "Lei 8.078/90") []))
             {| c_lei := py "Lei 8.078/90";
                c_titulo := py "Lei 8.078";
                c_link := py "http://portal/l8078";
                c_conteudo := py "Art. 1 O presente codigo" |} []).
    reflexivity.
Defined.


(** C10 fails at a page of the law that html.parser rejects: the search
    succeeds, the result has a link and a heading, the request for the
    link returns a response (status 200), and [buscar_conteudo_lei]
    returns [None] after printing the parser's error. *)
Lemma lei_rejeitada_ausente :
  requests_get (Amostra.colaboradores Cenarios.lei_rejeitada)
    (py "http://portal/l8078") None []
  = (Ok {| status_code := 200; text := Amostra.pagina_rejeitada |}, [])
  /\ buscar_conteudo_lei (Amostra.colaboradores Cenarios.lei_rejeitada)
       (py "Lei 8.078/90") []
     = (Ok None, [py "Erro ao buscar lei Lei 8.078/90: ParserRejectedMarkup"]).
Proof. split; reflexivity. Qed.

(** ** Discrepancy analysis *)

Section Analise.

Context {W : Type} (C : Collaborators W).

Lemma juntar_conteudos_total (leis : list str) (acc : str) (w : W) :
  exists cl w', juntar_conteudos C leis acc w = (Ok cl, w').
Proof.
  revert acc w; induction leis as [|l leis IH]; intros acc w; simpl.
  - unfold ret. eauto.
  - unfold bind.
    destruct (buscar_nunca_levanta C l w) as (r & w1 & ->).
    destruct r as [c|]; apply IH.
Qed.

Lemma montar_conteudo_leis_total (citacoes : list citacao) (w : W) :
  exists cl w', montar_conteudo_leis C citacoes w = (Ok cl, w').
Proof.
  unfold montar_conteudo_leis, bind.
  destruct (juntar_conteudos_total (elements (leis_identificadas citacoes)) [] w)
    as (cl & w' & ->).
  unfold ret. eauto.
Qed.

(** C3: [analisar_discrepancias] never raises, and it returns the empty
    list when the model call fails, when the text handed to [json.loads]
    (the response stripped, its code fence removed) is not valid JSON, and
    when the parsed JSON gives no ['discrepancias'] key. *)
Theorem analisar_lista_vazia_sem_excecao (txt : str) (citacoes : list citacao)
    (w : W) :
  (exists v w', analisar_discrepancias C txt citacoes w = (Ok v, w'))
  /\ (forall cl w1,
        montar_conteudo_leis C citacoes w = (Ok cl, w1) ->
        analise_falha C (PromptDiscrepancias txt (json_dumps C citacoes) cl) w1 ->
        exists w', analisar_discrepancias C txt citacoes w = (Ok (PyList []), w')).
Proof.
  unfold analisar_discrepancias, bind.
  destruct (montar_conteudo_leis_total citacoes w) as (cl & w1 & ->).
  split.
  - unfold try_except.
    destruct (analisar_try C txt citacoes cl w1) as [[v|e] w2];
      [eauto | unfold analisar_except; eauto].
  - intros cl' w1' [= <- <-] Hf.
    unfold try_except, analisar_try, bind, lift, analisar_except.
    destruct Hf as [e w2 F1 | r w2 e F1 F2 | r w2 v e F1 F2 F3]; rewrite F1.
    + eauto.
    + rewrite F2. eauto.
    + rewrite F2, F3. eauto.
Qed.

(** What the analysis hands back when nothing raises: the value stored
    under ['discrepancias'] in the parsed answer, of whatever kind it is. *)
Lemma analisar_devolve_o_valor (txt : str) (citacoes : list citacao)
    (w w1 w2 : W) (cl resposta : str) (d : list (str * pyval)) (v : pyval) :
  montar_conteudo_leis C citacoes w = (Ok cl, w1) ->
  chain_invoke C (PromptDiscrepancias txt (json_dumps C citacoes) cl) w1
  = (Ok resposta, w2) ->
  json_loads C (sem_cerca (strip resposta)) = Ok (PyDict d) ->
  dict_get d (py "discrepancias") = Some v ->
  analisar_discrepancias C txt citacoes w = (Ok v, w2).
Proof.
  intros Hm Hc Hj Hd.
  unfold analisar_discrepancias, bind. rewrite Hm.
  unfold try_except, analisar_try, bind, lift. rewrite Hc, Hj.
  unfold subscript. rewrite Hd. reflexivity.
Qed.

End Analise.

Lemma analisar_lista_vazia_sem_excecao_witness :
  exists w',
    analisar_discrepancias (Amostra.colaboradores Amostra.modelo_falha)
      (py "conforme o CDC")
      [{| texto := py "CDC"; posicao := (11, 14)%nat; tipo := tipo_artigo |}] []
    = (Ok (PyList []), w').
Proof.
  refine (proj2 (analisar_lista_vazia_sem_excecao
                   (Amostra.colaboradores Amostra.modelo_falha)
                   (py "conforme o CDC")
                   [{| texto := py "CDC"; posicao := (11, 14)%nat;
                       tipo := tipo_artigo |}] [])
            (cabecalho LEI_CDC ++ py "Art. 1") [] _ _).
  - vm_compute. reflexivity.
  - apply (falha_modelo _ _ _ (ModelError (py "rate limit")) []). reflexivity.
Defined.

(** C2 at the response [{"discrepancias": null}]: the ['discrepancias']
    entry of the result is [None], which is no array of records. *)
Lemma discrepancias_nulas :
  processar_documento_completo (Amostra.colaboradores Amostra.modelo_nulo)
    (py "bom dia") []
  = (Ok {| textoSimplificado := py "texto simples";
           discrepancias := PyNone;
           leisEncontradas := [];
           citacoesEncontradas := 0 |}, [])
  /\ is_array_of_records PyNone = false.
Proof. split; reflexivity. Qed.

(** ** Orchestration *)

Section Orquestracao.

Context {W : Type} (C : Collaborators W).

(** The loop of the source and the loop that keeps the fetched dicts run
    alike, and the entries of the first are those of the dicts of the
    second. *)
Lemma leis_loop_conteudos_sim (citacoes : list citacao)
    (cs : list ConteudoLei) (vistas : gset str) (w : W) :
  leis_loop C citacoes (List.map entrada cs) vistas w
  = match leis_loop_conteudos C citacoes cs vistas w with
    | (Ok l, w') => (Ok (List.map entrada l), w')
    | (Raise e, w') => (Raise e, w')
    end.
Proof.
  revert cs vistas w; induction citacoes as [|cit rest IH];
    intros cs vistas w; simpl; [reflexivity|].
  destruct (lei_busca_de (texto cit)) as [lei_busca|]; [|apply IH].
  destruct (bool_decide (lei_busca ∈ vistas)); [apply IH|].
  unfold bind.
  destruct (buscar_conteudo_lei C lei_busca w) as [[[c|]|e] w1];
    [|apply IH|reflexivity].
  rewrite <- IH, List.map_app. reflexivity.
Qed.

(** What the loop keeps: the laws of the dicts are pairwise distinct and
    all were seen, and no more dicts are added than citations are left. *)
Lemma leis_loop_conteudos_inv (citacoes : list citacao)
    (cs : list ConteudoLei) (vistas : gset str) (w w' : W)
    (l : list ConteudoLei) :
  leis_loop_conteudos C citacoes cs vistas w = (Ok l, w') ->
  NoDup (List.map c_lei cs) ->
  (forall c, In c cs -> c_lei c ∈ vistas) ->
  NoDup (List.map c_lei l)
  /\ (length l <= length cs + length citacoes)%nat.
Proof.
  revert cs vistas w; induction citacoes as [|cit rest IH];
    intros cs vistas w H Hnd Hin; simpl in H.
  - injection H as <- <-. split; [exact Hnd|lia].
  - destruct (lei_busca_de (texto cit)) as [lei_busca|].
    + destruct (bool_decide (lei_busca ∈ vistas)) eqn:Hv.
      * apply IH in H; auto. simpl. intuition lia.
      * apply bool_decide_eq_false in Hv.
        unfold bind in H.
        destruct (buscar_conteudo_lei C lei_busca w) as [[[c|]|e] w1] eqn:Hb;
          [| |discriminate].
        -- apply buscar_some_lei in Hb.
           apply IH in H.
           ++ rewrite length_app in H. simpl in *. intuition lia.
           ++ rewrite List.map_app. simpl.
              apply NoDup_app. split; [exact Hnd|split].
              ** intros x Hx Hx'. apply list_elem_of_In in Hx.
                 apply in_map_iff in Hx as (c' & <- & Hc').
                 apply list_elem_of_singleton in Hx'.
                 apply Hv. rewrite <- Hb, <- Hx'. apply Hin, Hc'.
              ** apply NoDup_singleton.
           ++ intros c' Hc'. apply in_app_iff in Hc' as [Hc'|[<-|[]]].
              ** apply elem_of_union_r, Hin, Hc'.
              ** rewrite Hb. apply elem_of_union_l, elem_of_singleton.
                 reflexivity.
        -- apply IH in H; auto.
           ++ simpl. intuition lia.
           ++ intros c' Hc'. apply elem_of_union_r, Hin, Hc'.
    + apply IH in H; auto. simpl. intuition lia.
Qed.

(** Every dict the loop adds was fetched under the [lei_busca] of one of
    the citations. *)
Lemma leis_loop_conteudos_origem (citacoes : list citacao)
    (cs : list ConteudoLei) (vistas : gset str) (w w' : W)
    (l : list ConteudoLei) (c : ConteudoLei) :
  leis_loop_conteudos C citacoes cs vistas w = (Ok l, w') ->
  In c l ->
  In c cs
  \/ exists cit, In cit citacoes /\ lei_busca_de (texto cit) = Some (c_lei c).
Proof.
  revert cs vistas w; induction citacoes as [|cit rest IH];
    intros cs vistas w H Hc; simpl in H.
  - injection H as <- <-. left. exact Hc.
  - assert (Hrest : forall cs' vistas' w1,
               leis_loop_conteudos C rest cs' vistas' w1 = (Ok l, w') ->
               In c cs'
               \/ exists cit0, In cit0 (cit :: rest)
                              /\ lei_busca_de (texto cit0) = Some (c_lei c)).
    { intros cs' vistas' w1 H1.
      destruct (IH _ _ _ H1 Hc) as [Hl|(cit0 & Hin0 & Hlb)]; [left; exact Hl|].
      right. exists cit0. split; [right; exact Hin0|exact Hlb]. }
    destruct (lei_busca_de (texto cit)) as [lei_busca|] eqn:Hlb;
      [|apply (Hrest _ _ _ H)].
    destruct (bool_decide (lei_busca ∈ vistas)); [apply (Hrest _ _ _ H)|].
    unfold bind in H.
    destruct (buscar_conteudo_lei C lei_busca w) as [[[c0|]|e] w1] eqn:Hb;
      [|apply (Hrest _ _ _ H)|discriminate].
    apply buscar_some_lei in Hb.
    destruct (Hrest _ _ _ H) as [Hl|Hr]; [|right; exact Hr].
    apply in_app_iff in Hl as [Hl|[<-|[]]]; [left; exact Hl|].
    right. exists cit. split; [left; reflexivity|]. rewrite Hb. exact Hlb.
Qed.


(** C8, as the code has it: for a text in which no pattern matches, the
    portal is not asked anything; the model is asked for the analysis with
    an empty citation list and the placeholder for the contents of the
    laws, then for the simplification.  When the second call fails
    [processar_documento_completo] raises; otherwise its result has
    [citacoesEncontradas = 0], [leisEncontradas = []], as [discrepancias]
    whatever the analysis made of the model's first answer, and as
    [textoSimplificado] the model's second answer stripped. *)
Theorem documento_sem_citacoes (txt : str) (w : W) :
  extrair C txt = [] ->
  (forall r w',
      processar_documento_completo C txt w = (Ok r, w') ->
      citacoesEncontradas r = 0%nat
      /\ leisEncontradas r = []
      /\ exists w1 resposta,
           try_except (analisar_try C txt [] SEM_CONTEUDO) (analisar_except C) w
           = (Ok (discrepancias r), w1)
           /\ chain_invoke C (PromptSimplificar txt) w1 = (Ok resposta, w')
           /\ textoSimplificado r = strip resposta)
  /\ (forall d w1 resposta w2,
        try_except (analisar_try C txt [] SEM_CONTEUDO) (analisar_except C) w
        = (Ok d, w1) ->
        chain_invoke C (PromptSimplificar txt) w1 = (Ok resposta, w2) ->
        processar_documento_completo C txt w
        = (Ok {| textoSimplificado := strip resposta;
                 discrepancias := d;
                 leisEncontradas := [];
                 citacoesEncontradas := 0 |}, w2))
  /\ (forall d w1 e w2,
        try_except (analisar_try C txt [] SEM_CONTEUDO) (analisar_except C) w
        = (Ok d, w1) ->
        chain_invoke C (PromptSimplificar txt) w1 = (Raise e, w2) ->
        processar_documento_completo C txt w = (Raise e, w2)).
Proof.
  intros Hx.
  assert (Hm : montar_conteudo_leis C [] w = (Ok SEM_CONTEUDO, w)).
  { unfold montar_conteudo_leis, leis_identificadas, bind. simpl.
    rewrite elements_empty. reflexivity. }
  unfold processar_documento_completo, analisar_discrepancias,
    simplificar_texto, bind.
  rewrite Hx, Hm. simpl.
  destruct (try_except (analisar_try C txt [] SEM_CONTEUDO) (analisar_except C) w)
    as [[d|e] w1].
  - destruct (chain_invoke C (PromptSimplificar txt) w1) as [[resposta|e] w2]
      eqn:Hc.
    + unfold ret. split; [|split].
      * intros r w' [= <- <-]. simpl.
        split; [reflexivity|split; [reflexivity|]].
        exists w1, resposta. auto.
      * intros d' w1' resposta' w2' [= <- <-] H. rewrite Hc in H.
        injection H as <- <-. reflexivity.
      * intros d' w1' e w2' [= <- <-] H. rewrite Hc in H. discriminate.
    + split; [|split].
      * intros r w' [=].
      * intros d' w1' resposta' w2' [= <- <-] H. rewrite Hc in H. discriminate.
      * intros d' w1' e' w2' [= <- <-] H. rewrite Hc in H.
        injection H as <- <-. reflexivity.
  - split; [|split]; intros; discriminate.
Qed.

End Orquestracao.


Lemma documento_sem_citacoes_witness :
  processar_documento_completo (Amostra.colaboradores Amostra.tudo_certo)
    (py "bom dia") []
  = (Ok {| textoSimplificado := strip (py " texto simples ");
           discrepancias := PyList [];
           leisEncontradas := [];
           citacoesEncontradas := 0 |}, [])
  /\ processar_documento_completo
       (Amostra.colaboradores Amostra.simplificacao_falha) (py "bom dia") []
     = (Raise (ModelError (py "rate limit")), []).
Proof.
  split.
  - apply (proj1 (proj2 (documento_sem_citacoes
                           (Amostra.colaboradores Amostra.tudo_certo)
                           (py "bom dia") [] eq_refl))
             (PyList []) [] (py " texto simples ") []);
      reflexivity.
  - apply (proj2 (proj2 (documento_sem_citacoes
                           (Amostra.colaboradores Amostra.simplificacao_falha)
                           (py "bom dia") [] eq_refl))
             (PyList []) [] (ModelError (py "rate limit")) []);
      reflexivity.
Defined.

(** C8 fails with a model that reports a discrepancy although there is no
    citation and answers the simplification with blanks: the text has no
    legal reference, yet [discrepancias] is not empty and
    [textoSimplificado] is. *)
Lemma sem_citacoes_com_discrepancia :
  extrair_citacoes_legais ascii_isdecimal (py "bom dia") = []
  /\ processar_documento_completo (Amostra.colaboradores Amostra.modelo_inventa)
       (py "bom dia") []
     = (Ok {| textoSimplificado := [];
              discrepancias := PyList [PyDict [(py "tipo", PyStr (py "ok"))]];
              leisEncontradas := [];
              citacoesEncontradas := 0 |}, []).
Proof. split; reflexivity. Qed.

(** * Further properties of the code *)

(** ** Extraction: order, coverage and size of the citations *)

Section Varredura.

Variable nd : char -> bool.

Local Open Scope nat_scope.

Lemma em_ordem_mono (lo lo' : nat) (spans : list (nat * nat)) :
  lo' <= lo -> em_ordem lo spans -> em_ordem lo' spans.
Proof.
  destruct spans as [|[a b] rest]; simpl; [auto|].
  intros Hl (Ha & Hb & Hr). split; [lia|split; [exact Hb|exact Hr]].
Qed.

Lemma scan_em_ordem (r : re) (whole s : str) (pos skip : nat) :
  (forall s0 len, match_here nd r s0 = Some len -> 2 <= len) ->
  em_ordem (pos + skip) (List.map m_span (scan nd r whole s pos skip)).
Proof.
  intros Hr. revert pos skip; induction s as [|c s IH]; intros pos skip;
    simpl; [exact I|].
  destruct skip as [|skip].
  - destruct (match_here nd r (c :: s)) as [len|] eqn:Hm; simpl.
    + pose proof (Hr _ _ Hm) as Hlen.
      split; [lia|split; [lia|]].
      eapply em_ordem_mono; [|apply IH]. lia.
    + eapply em_ordem_mono; [|apply IH]. lia.
  - eapply em_ordem_mono; [|apply IH]. lia.
Qed.

(** Where a pattern that needs a character matches, the scan has a match
    that covers the place. *)
Lemma scan_cobre (r : re) (whole s : str) (pos skip i len : nat) :
  1 <= min_len r ->
  pos + skip <= i ->
  match_here nd r (drop (i - pos) s) = Some len ->
  exists m, In m (scan nd r whole s pos skip)
            /\ fst (m_span m) <= i < snd (m_span m).
Proof.
  intros Hmin. revert pos skip; induction s as [|c s IH]; intros pos skip Hi Hm.
  - rewrite drop_nil in Hm.
    pose proof (match_here_bound nd _ _ _ Hm) as Hb.
    apply run_reaches in Hm as (n' & s' & Hn & [= <-]). simpl in Hb. lia.
  - simpl. destruct skip as [|skip].
    + destruct (match_here nd r (c :: s)) as [len0|] eqn:H0.
      * destruct (Nat.lt_ge_cases i (pos + len0)) as [Hlt|Hge].
        -- eexists. split; [left; reflexivity|]. simpl. lia.
        -- pose proof H0 as H0'.
           apply run_reaches in H0' as (n' & s' & Hn & [= <-]).
           destruct (IH (S pos) (pred n')) as (m & Hin & Hspan).
           ++ lia.
           ++ replace (i - pos) with (S (i - S pos)) in Hm by lia. exact Hm.
           ++ exists m. split; [right; exact Hin|exact Hspan].
      * destruct (Nat.eq_dec i pos) as [->|Hne].
        -- rewrite Nat.sub_diag in Hm. simpl in Hm. congruence.
        -- destruct (IH (S pos) 0) as (m & Hin & Hspan).
           ++ lia.
           ++ replace (i - pos) with (S (i - S pos)) in Hm by lia. exact Hm.
           ++ exists m. split; [exact Hin|exact Hspan].
    + destruct (IH (S pos) skip) as (m & Hin & Hspan).
      * lia.
      * replace (i - pos) with (S (i - S pos)) in Hm by lia. exact Hm.
      * exists m. split; [exact Hin|exact Hspan].
Qed.

Lemma scan_pares (r : re) (whole s : str) (pos skip : nat) (m : Match) :
  (forall s0 len, match_here nd r s0 = Some len -> 2 <= len) ->
  In m (scan nd r whole s pos skip) ->
  fst (m_span m) + 2 <= snd (m_span m).
Proof.
  intros Hr. revert pos skip; induction s as [|c s IH]; intros pos skip Hin;
    simpl in Hin; [destruct Hin|].
  destruct skip as [|skip]; [|eapply IH; exact Hin].
  destruct (match_here nd r (c :: s)) as [len|] eqn:Hm; [|eapply IH; exact Hin].
  destruct Hin as [<-|Hin]; [|eapply IH; exact Hin].
  simpl. apply Hr in Hm. lia.
Qed.

Lemma citacoes_pares (padrao : re) (txt : str) :
  In padrao padroes ->
  forall m, In m (finditer nd padrao txt) ->
            fst (m_span m) + 2 <= snd (m_span m).
Proof.
  intros Hp m Hm. eapply scan_pares; [|exact Hm].
  intros s0 len. apply padroes_consomem. exact Hp.
Qed.

End Varredura.

(** X1: the citations one pattern contributes come in text order and do
    not overlap: each starts where the one before ended or later, and each
    spans at least two characters. *)
Theorem citacoes_do_padrao_em_ordem (nd : char -> bool) (padrao : re)
    (txt : str) :
  In padrao padroes ->
  em_ordem 0
    (List.map posicao (List.map citacao_of_match (finditer nd padrao txt))).
Proof.
  intros Hin. rewrite List.map_map. simpl.
  apply (scan_em_ordem nd padrao txt txt 0 0).
  intros s0 len. apply padroes_consomem. exact Hin.
Qed.

Lemma citacoes_do_padrao_em_ordem_witness :
  em_ordem 0
    (List.map posicao
       (List.map citacao_of_match
          (finditer ascii_isdecimal padrao_cc (py "cccc CC")))).
Proof.
  apply (citacoes_do_padrao_em_ordem ascii_isdecimal padrao_cc (py "cccc CC")).
  vm_compute. tauto.
Defined.

(** X2: no occurrence is missed.  Wherever one of the patterns matches the
    text from position [i] on, [extrair_citacoes_legais] returns a
    citation whose span covers [i]: the match found there, or an earlier
    match of the same pattern that reaches over it. *)
Theorem ocorrencia_coberta (nd : char -> bool) (padrao : re) (txt : str)
    (i len : nat) :
  In padrao padroes ->
  match_here nd padrao (drop i txt) = Some len ->
  exists c, In c (extrair_citacoes_legais nd txt)
            /\ (fst (posicao c) <= i < snd (posicao c))%nat.
Proof.
  intros Hin Hm.
  destruct (scan_cobre nd padrao txt txt 0 0 i len) as (m & Hmin & Hspan).
  - assert (H2 : (2 <= min_len padrao)%nat); [|lia].
    simpl in Hin.
    destruct Hin as [<-|[<-|[<-|[<-|[<-|[<-|[]]]]]]]; vm_compute; lia.
  - lia.
  - rewrite Nat.sub_0_r. exact Hm.
  - exists (citacao_of_match m). split; [|exact Hspan].
    unfold extrair_citacoes_legais. apply in_flat_map.
    exists padrao. split; [exact Hin|]. apply in_map. exact Hmin.
Qed.

Lemma ocorrencia_coberta_witness :
  exists c, In c (extrair_citacoes_legais ascii_isdecimal (py "o artigo 5 do CDC"))
            /\ (fst (posicao c) <= 14 < snd (posicao c))%nat.
Proof.
  apply (ocorrencia_coberta ascii_isdecimal padrao_cdc (py "o artigo 5 do CDC")
           14 3).
  - vm_compute. tauto.
  - reflexivity.
Defined.

(** X3: the text of a citation has exactly [end - start] characters, at
    least two; so a text of fewer than two characters has no citation. *)
Theorem citacao_tamanho (nd : char -> bool) (txt : str) :
  (forall c, In c (extrair_citacoes_legais nd txt) ->
             length (texto c) = (snd (posicao c) - fst (posicao c))%nat
             /\ (2 <= length (texto c))%nat)
  /\ ((length txt < 2)%nat -> extrair_citacoes_legais nd txt = []).
Proof.
  assert (Hc : forall c, In c (extrair_citacoes_legais nd txt) ->
             length (texto c) = (snd (posicao c) - fst (posicao c))%nat
             /\ (2 <= length (texto c))%nat
             /\ (2 <= length txt)%nat).
  { intros c Hin.
    apply extrair_inv in Hin as (padrao & m & Hp & Hm & ->).
    pose proof (finditer_spans nd _ _ _ Hm) as [Hs Hb].
    pose proof (citacoes_pares nd padrao txt Hp) as Ho.
    assert (H2 : (fst (m_span m) + 2 <= snd (m_span m))%nat).
    { apply Ho. exact Hm. }
    unfold citacao_of_match, group0, slice; simpl. rewrite Hs.
    rewrite length_take, length_drop. lia. }
  split.
  - intros c Hin. destruct (Hc c Hin) as (H1 & H2 & _). auto.
  - intros Hlt.
    destruct (extrair_citacoes_legais nd txt) as [|c l] eqn:E; [reflexivity|].
    destruct (Hc c) as (_ & _ & H3); [left; reflexivity|]. lia.
Qed.

Lemma citacao_tamanho_witness :
  extrair_citacoes_legais ascii_isdecimal (py "C") = [].
Proof.
  apply (proj2 (citacao_tamanho ascii_isdecimal (py "C"))). simpl. lia.
Defined.

(** ** Retrieval: what is logged, what is silent, what comes back *)

Section BuscaExtra.

Context {W : Type} (C : Collaborators W).

(** X4: the status of the search response is checked (unlike that of the
    law page): on a 4xx or 5xx status [buscar_conteudo_lei] returns [None]
    whatever the body holds, prints the error line of the [HTTPError] and
    makes no second request. *)
Theorem buscar_status_da_busca (lei_id : str) (w w1 : W) (r : Response) :
  requests_get C url_busca (Some lei_id) w = (Ok r, w1) ->
  status_ok r = false ->
  buscar_conteudo_lei C lei_id w
  = (Ok None, print C (linha_erro_busca C lei_id (HTTPError (status_code r))) w1).
Proof.
  intros H1 Hs.
  unfold buscar_conteudo_lei, try_except, buscar_conteudo_lei_try, bind,
    raise_for_status.
  rewrite H1. unfold status_ok in Hs. apply negb_false_iff in Hs. rewrite Hs.
  reflexivity.
Qed.

(** X5: three ways of finding nothing are silent.  When the search page
    has no [div] of class [item], when that element holds no link, and when
    the link has no or an empty [href], [buscar_conteudo_lei] returns
    [None] with the world as the search request left it: nothing is
    printed and the law page is not requested. *)
Theorem buscar_ausente_em_silencio (lei_id : str) (w w1 : W) (r : Response)
    (soup : node) :
  requests_get C url_busca (Some lei_id) w = (Ok r, w1) ->
  status_ok r = true ->
  BeautifulSoup C (text r) = Ok soup ->
  (find_class (py "div") (py "item") soup = None ->
   buscar_conteudo_lei C lei_id w = (Ok None, w1))
  /\ (forall item,
        find_class (py "div") (py "item") soup = Some item ->
        find (py "a") item = None ->
        buscar_conteudo_lei C lei_id w = (Ok None, w1))
  /\ (forall item a,
        find_class (py "div") (py "item") soup = Some item ->
        find (py "a") item = Some a ->
        tag_get a (py "href") [] = [] ->
        buscar_conteudo_lei C lei_id w = (Ok None, w1)).
Proof.
  intros H1 Hs Hp.
  unfold buscar_conteudo_lei, try_except, buscar_conteudo_lei_try, bind,
    raise_for_status, lift.
  rewrite H1. unfold status_ok in Hs. apply negb_true_iff in Hs. rewrite Hs.
  unfold ret at 1. rewrite Hp.
  split; [|split].
  - intros ->. reflexivity.
  - intros item -> ->. reflexivity.
  - intros item a -> -> ->. reflexivity.
Qed.


(** X7: a dict that [buscar_conteudo_lei] returns carries the law it was
    asked for under ['lei'] and a link that is not empty. *)
Theorem buscar_dict_bem_formado (lei_id : str) (w w' : W) (c : ConteudoLei) :
  buscar_conteudo_lei C lei_id w = (Ok (Some c), w') ->
  c_lei c = lei_id /\ c_link c <> [].
Proof.
  intros H.
  apply buscar_some_inv in H
    as (r & w1 & soup & item & a & r2 & soup2 & h3
        & _ & _ & _ & _ & _ & Hh & _ & _ & _ & ->).
  split; [reflexivity|exact Hh].
Qed.

End BuscaExtra.

Lemma buscar_status_da_busca_witness :
  buscar_conteudo_lei (Amostra.colaboradores Cenarios.busca_503)
    (py "Lei 8.078/90") []
  = (Ok None, [py "Erro ao buscar lei Lei 8.078/90: HTTPError"]).
Proof.
  apply (buscar_status_da_busca (Amostra.colaboradores Cenarios.busca_503)
           (py "Lei 8.078/90") [] []
           {| status_code := 503; text := Amostra.pagina_busca |});
    reflexivity.
Defined.

Lemma buscar_ausente_em_silencio_witness :
  buscar_conteudo_lei (Amostra.colaboradores Cenarios.busca_vazia)
    (py "Lei 8.078/90") []
  = (Ok None, []).
Proof.
  apply (proj1 (buscar_ausente_em_silencio
                  (Amostra.colaboradores Cenarios.busca_vazia)
                  (py "Lei 8.078/90") [] []
                  {| status_code := 200; text := py "nenhum resultado" |}
                  (Tag (py "[document]") []
                     [NavigableString (py "nenhum resultado")])
                  eq_refl eq_refl eq_refl)).
  reflexivity.
Defined.


Lemma buscar_dict_bem_formado_witness :
  py "Lei 8.078/90" = py "Lei 8.078/90" /\ py "http://portal/l8078" <> [].
Proof.
  apply (buscar_dict_bem_formado (Amostra.colaboradores Amostra.tudo_certo)
           (py "Lei 8.078/90") [] []
           {| c_lei := py "Lei 8.078/90";
              c_titulo := py "Lei 8.078";
              c_link := py "http://portal/l8078";
              c_conteudo := py "Art. 1 O presente codigo" |}).
  reflexivity.
Defined.

(** ** Analysis: the laws looked up and the text given to the parser *)

Lemma leis_identificadas_acc (citacoes : list citacao) (acc : gset str) (l : str) :
  l ∈ foldl (fun leis cit =>
               match lei_identificada (texto cit) with
               | Some l' => {[ l' ]} ∪ leis
               | None => leis
               end) acc citacoes
  <-> l ∈ acc
      \/ exists cit, In cit citacoes /\ lei_identificada (texto cit) = Some l.
Proof.
  revert acc; induction citacoes as [|cit rest IH]; intros acc; simpl.
  - split; [auto|]. intros [H|(cit & [] & _)]. exact H.
  - rewrite IH. split.
    + intros [H|(cit' & Hin & Hl)].
      * destruct (lei_identificada (texto cit)) as [l'|] eqn:E; [|auto].
        apply elem_of_union in H as [H|H]; [|auto].
        apply elem_of_singleton in H as ->. right. exists cit. auto.
      * right. exists cit'. auto.
    + intros [H|(cit' & [<-|Hin] & Hl)].
      * left. destruct (lei_identificada (texto cit)); [|exact H].
        apply elem_of_union_r, H.
      * left. rewrite Hl. apply elem_of_union_l, elem_of_singleton. reflexivity.
      * right. exists cit'. auto.
Qed.

(** X8: the laws [analisar_discrepancias] looks up are exactly the laws
    that its mapping gives to some citation of the list, each once however
    many citations share it. *)
Theorem leis_identificadas_sao_as_mapeadas (citacoes : list citacao) (l : str) :
  (In l (elements (leis_identificadas citacoes))
   <-> exists cit, In cit citacoes /\ lei_identificada (texto cit) = Some l)
  /\ NoDup (elements (leis_identificadas citacoes)).
Proof.
  split; [|apply NoDup_elements].
  rewrite <- list_elem_of_In, elem_of_elements.
  unfold leis_identificadas. rewrite leis_identificadas_acc.
  split; [intros [H|H]; [|exact H]|auto].
  apply not_elem_of_empty in H. destruct H.
Qed.

(** *** The code fence *)

Lemma split_on_not_nil (sep : char) (s : str) : split_on sep s <> [].
Proof.
  destruct s as [|c s]; simpl; [discriminate|].
  destruct (c =? sep); [discriminate|].
  destruct (split_on sep s); discriminate.
Qed.

Lemma split_on_app (sep : char) (x y : str) :
  split_on sep (x ++ sep :: y) = split_on sep x ++ split_on sep y.
Proof.
  induction x as [|c x IH]; simpl.
  - rewrite N.eqb_refl. reflexivity.
  - destruct (c =? sep); [rewrite IH; reflexivity|].
    rewrite IH.
    destruct (split_on sep x) as [|p ps] eqn:E; [|reflexivity].
    destruct (split_on_not_nil _ _ E).
Qed.

Lemma split_on_none (sep : char) (x : str) :
  Forall (fun c => c <> sep) x -> split_on sep x = [x].
Proof.
  induction 1 as [|c x Hc _ IH]; simpl; [reflexivity|].
  apply N.eqb_neq in Hc. rewrite Hc, IH. reflexivity.
Qed.

(** Joining the pieces of a split with the separator gives the text back. *)
Lemma join_split_on (sep : char) (s : str) : join [sep] (split_on sep s) = s.
Proof.
  induction s as [|c s IH]; simpl; [reflexivity|].
  destruct (N.eqb_spec c sep) as [->|Hne].
  - destruct (split_on sep s) as [|p ps] eqn:E;
      [destruct (split_on_not_nil _ _ E)|].
    simpl in *. rewrite IH. reflexivity.
  - destruct (split_on sep s) as [|p ps] eqn:E;
      [destruct (split_on_not_nil _ _ E)|].
    destruct ps as [|q qs]; simpl in *; rewrite <- IH; reflexivity.
Qed.

Lemma length_split_on (s : str) :
  length (split_on 10 s) = S (linhas_extra s).
Proof.
  unfold linhas_extra. induction s as [|c s IH]; simpl; [reflexivity|].
  destruct (N.eqb_spec c 10) as [->|Hne].
  - rewrite filter_cons_True by reflexivity. simpl. rewrite IH. reflexivity.
  - rewrite filter_cons_False by exact Hne.
    destruct (split_on 10 s) as [|p ps] eqn:E;
      [destruct (split_on_not_nil _ _ E)|].
    simpl in *. exact IH.
Qed.

Lemma startswith_app_r (p s t : str) :
  startswith p s = true -> startswith p (s ++ t) = true.
Proof.
  revert s; induction p as [|a p IH]; intros s H; [reflexivity|].
  destruct s as [|b s]; simpl in *; [discriminate|].
  apply andb_true_iff in H as [-> H]. simpl. auto.
Qed.



Lemma sem_cerca_poucas_linhas (r : str) :
  startswith (py "```") r = true ->
  (linhas_extra r <= 1)%nat ->
  sem_cerca r = [].
Proof.
  intros Hs Hl. unfold sem_cerca. rewrite Hs.
  pose proof (length_split_on r) as Hlen.
  destruct (split_on 10 r) as [|p [|q [|x rest]]]; simpl in *;
    try reflexivity; lia.
Qed.

Section AnaliseExtra.

Context {W : Type} (C : Collaborators W).

(** X11: a fenced answer of fewer than three lines is lost.  The first and
    the last line are dropped whatever they hold, so when the stripped
    answer opens with a fence and has at most one line feed (the JSON on
    the line of a fence), [json.loads] gets the empty text; as that is not
    JSON, [analisar_discrepancias] prints the error and returns the empty
    list. *)
Theorem analisar_cerca_curta (txt : str) (citacoes : list citacao)
    (w w1 w2 : W) (cl resposta : str) (e : exn) :
  json_loads C [] = Raise e ->
  montar_conteudo_leis C citacoes w = (Ok cl, w1) ->
  chain_invoke C (PromptDiscrepancias txt (json_dumps C citacoes) cl) w1
  = (Ok resposta, w2) ->
  startswith (py "```") (strip resposta) = true ->
  (linhas_extra (strip resposta) <= 1)%nat ->
  analisar_discrepancias C txt citacoes w
  = (Ok (PyList []), print C (py "Erro ao analisar: " ++ exn_str C e) w2).
Proof.
  intros Hj Hm Hc Hs Hl.
  unfold analisar_discrepancias, bind. rewrite Hm.
  unfold try_except, analisar_try, bind, lift. rewrite Hc.
  rewrite (sem_cerca_poucas_linhas _ Hs Hl), Hj. reflexivity.
Qed.

(** X12: what [analisar_discrepancias] can return.  A value it returns is
    the empty list, or it is the value stored under ['discrepancias'] in
    the object that the model's answer (stripped, its fence removed) parses
    to; and whenever the answer parses to an object that holds the key, the
    value stored there is returned as it is. *)
Theorem analisar_retorno (txt : str) (citacoes : list citacao) (w : W) :
  (forall v w',
      analisar_discrepancias C txt citacoes w = (Ok v, w') ->
      v = PyList []
      \/ exists cl w1 resposta d,
           montar_conteudo_leis C citacoes w = (Ok cl, w1)
           /\ chain_invoke C (PromptDiscrepancias txt (json_dumps C citacoes) cl) w1
              = (Ok resposta, w')
           /\ json_loads C (sem_cerca (strip resposta)) = Ok (PyDict d)
           /\ dict_get d (py "discrepancias") = Some v)
  /\ (forall cl w1 resposta w2 d v,
        montar_conteudo_leis C citacoes w = (Ok cl, w1) ->
        chain_invoke C (PromptDiscrepancias txt (json_dumps C citacoes) cl) w1
        = (Ok resposta, w2) ->
        json_loads C (sem_cerca (strip resposta)) = Ok (PyDict d) ->
        dict_get d (py "discrepancias") = Some v ->
        analisar_discrepancias C txt citacoes w = (Ok v, w2)).
Proof.
  split.
  - intros v w' H.
    unfold analisar_discrepancias, bind in H.
    destruct (montar_conteudo_leis C citacoes w) as [[cl|e] w1] eqn:Hm;
      [|discriminate].
    unfold try_except, analisar_try, bind, lift, analisar_except in H.
    destruct (chain_invoke C (PromptDiscrepancias txt (json_dumps C citacoes) cl) w1)
      as [[resposta|e] w2] eqn:Hc; [|injection H as <- _; auto].
    destruct (json_loads C (sem_cerca (strip resposta))) as [p|e] eqn:Hj;
      [|injection H as <- _; auto].
    destruct p as [| | | | |l|d]; simpl in H;
      try (injection H as <- _; auto; fail).
    destruct (dict_get d (py "discrepancias")) as [x|] eqn:Hd;
      [|injection H as <- _; auto].
    injection H as <- <-. right. exists cl, w1, resposta, d. auto.
  - intros cl w1 resposta w2 d v Hm Hc Hj Hd.
    unfold analisar_discrepancias, bind. rewrite Hm.
    unfold try_except, analisar_try, bind, lift. rewrite Hc, Hj.
    unfold subscript. rewrite Hd. reflexivity.
Qed.

End AnaliseExtra.

Lemma leis_identificadas_sao_as_mapeadas_witness :
  In LEI_CDC
    (elements (leis_identificadas
                 [{| texto := py "CDC"; posicao := (0, 3)%nat; tipo := tipo_artigo |};
                  {| texto := py "cdc"; posicao := (5, 8)%nat; tipo := tipo_artigo |}])).
Proof.
  apply (proj2 (proj1 (leis_identificadas_sao_as_mapeadas _ LEI_CDC))).
  exists {| texto := py "CDC"; posicao := (0, 3)%nat; tipo := tipo_artigo |}.
  split; [left; reflexivity|reflexivity].
Defined.

Lemma analisar_cerca_curta_witness :
  analisar_discrepancias
    (Amostra.colaboradores Cenarios.cerca_numa_linha) (py "bom dia") [] []
  = (Ok (PyList []), [py "Erro ao analisar: JSONDecodeError"]).
Proof.
  apply (analisar_cerca_curta (Amostra.colaboradores Cenarios.cerca_numa_linha)
           (py "bom dia") [] [] [] [] SEM_CONTEUDO
           (py "```json" ++ Amostra.json_vazio ++ py "```") JSONDecodeError);
    try reflexivity.
  vm_compute. lia.
Defined.

Lemma analisar_retorno_witness :
  analisar_discrepancias (Amostra.colaboradores Amostra.modelo_inventa)
    (py "bom dia") [] []
  = (Ok (PyList [PyDict [(py "tipo", PyStr (py "ok"))]]), []).
Proof.
  apply (proj2 (analisar_retorno (Amostra.colaboradores Amostra.modelo_inventa)
                  (py "bom dia") [] [])
           SEM_CONTEUDO [] Amostra.json_um []
           [(py "discrepancias", PyList [PyDict [(py "tipo", PyStr (py "ok"))]])]);
    reflexivity.
Defined.

(** ** Analysis: the contents of the laws in the prompt *)

Section ConteudoLeis.

Context {W : Type} (C : Collaborators W).

Local Open Scope nat_scope.

Lemma length_cabecalho (l : str) : length (cabecalho l) = length l + 124.
Proof.
  unfold cabecalho. rewrite !length_app, !repeat_length. simpl. lia.
Qed.

Lemma juntar_conteudos_limite (leis : list str) (acc cl : str) (w w' : W) :
  juntar_conteudos C leis acc w = (Ok cl, w') ->
  length acc <= length cl
  /\ length cl <= length acc + sum_list (List.map parcela_maxima leis).
Proof.
  revert acc w; induction leis as [|l leis IH]; intros acc w H.
  - injection H as <- <-. simpl. lia.
  - cbn [juntar_conteudos] in H. unfold bind in H.
    destruct (buscar_conteudo_lei C l w) as [[[c|]|e] w1]; [| |discriminate].
    + apply IH in H. rewrite !length_app, length_cabecalho in H.
      pose proof (length_upto 2000 (c_conteudo c)) as Hu.
      assert (Hp : length l + 124 + length (upto 2000 (c_conteudo c))
                   <= parcela_maxima l)
        by (unfold parcela_maxima; lia).
      change (sum_list (List.map parcela_maxima (l :: leis)))
        with (parcela_maxima l + sum_list (List.map parcela_maxima leis)).
      lia.
    + apply IH in H.
      change (sum_list (List.map parcela_maxima (l :: leis)))
        with (parcela_maxima l + sum_list (List.map parcela_maxima leis)).
      lia.
Qed.

(** X10: [conteudo_leis] as the prompt receives it is never empty, and it
    is either the fixed placeholder or no longer than the sum, over the
    laws looked up, of the header of the law (its name and 124 characters)
    and 2000 characters of content. *)
Theorem conteudo_leis_limites (citacoes : list citacao) (w w' : W) (cl : str) :
  montar_conteudo_leis C citacoes w = (Ok cl, w') ->
  cl <> []
  /\ (cl = SEM_CONTEUDO
      \/ length cl
         <= sum_list (List.map parcela_maxima
                        (elements (leis_identificadas citacoes)))).
Proof.
  unfold montar_conteudo_leis, bind. intros H.
  destruct (juntar_conteudos C (elements (leis_identificadas citacoes)) [] w)
    as [[j|e] w1] eqn:Hj; [|discriminate].
  unfold ret in H. injection H as <- <-.
  apply juntar_conteudos_limite in Hj as [_ Hj]. simpl in Hj.
  destruct j as [|c j].
  - split; [vm_compute; discriminate|left; reflexivity].
  - split; [discriminate|right; exact Hj].
Qed.

End ConteudoLeis.

Lemma conteudo_leis_limites_witness :
  cabecalho LEI_CDC ++ py "Art. 1 O presente codigo" <> []
  /\ (cabecalho LEI_CDC ++ py "Art. 1 O presente codigo" = SEM_CONTEUDO
      \/ (length (cabecalho LEI_CDC ++ py "Art. 1 O presente codigo")
          <= sum_list
               (List.map parcela_maxima
                  (elements
                     (leis_identificadas
                        [{| texto := py "CDC"; posicao := (0, 3)%nat;
                            tipo := tipo_artigo |}]))))%nat).
Proof.
  apply (conteudo_leis_limites (Amostra.colaboradores Amostra.tudo_certo)
           [{| texto := py "CDC"; posicao := (0, 3)%nat; tipo := tipo_artigo |}]
           [] []).
  vm_compute. reflexivity.
Defined.

(** ** Simplification *)

Lemma lstrip_head (s : str) (c : char) (rest : str) :
  lstrip s = c :: rest -> isspace c = false.
Proof.
  induction s as [|a s IH]; simpl; [discriminate|].
  destruct (isspace a) eqn:Ha; [exact IH|].
  intros [= <- _]. exact Ha.
Qed.

Lemma lstrip_suffix (s : str) : exists u, s = u ++ lstrip s.
Proof.
  induction s as [|a s [u IH]]; simpl; [exists []; reflexivity|].
  destruct (isspace a).
  - exists (a :: u). simpl. rewrite <- IH. reflexivity.
  - exists []. reflexivity.
Qed.

Lemma rstrip_prefix (s : str) : exists t, s = rstrip s ++ t.
Proof.
  unfold rstrip. destruct (lstrip_suffix (rev s)) as [u Hu].
  exists (rev u). rewrite <- rev_app_distr, <- Hu, rev_involutive. reflexivity.
Qed.

Lemma rstrip_last (s ini : str) (c : char) :
  rstrip s = ini ++ [c] -> isspace c = false.
Proof.
  unfold rstrip. intros H.
  apply (f_equal (@rev N)) in H.
  rewrite rev_involutive, rev_app_distr in H. simpl in H.
  eapply lstrip_head. exact H.
Qed.

(** The two ends of a stripped text are no whitespace. *)
Lemma strip_ends (s : str) :
  (forall c rest, strip s = c :: rest -> isspace c = false)
  /\ (forall ini c, strip s = ini ++ [c] -> isspace c = false).
Proof.
  unfold strip. split.
  - intros c rest H.
    destruct (rstrip_prefix (lstrip s)) as [t Ht].
    rewrite H in Ht. simpl in Ht. eapply lstrip_head. exact Ht.
  - intros ini c H. eapply rstrip_last. exact H.
Qed.

Section Simplificacao.

Context {W : Type} (C : Collaborators W).

(** X13: [simplificar_texto] asks the model once and hands its answer back
    without the whitespace around it: the text returned neither begins nor
    ends with a whitespace character (it may be empty).  It has no
    fallback: it raises exactly the exception of the model call. *)
Theorem simplificar_texto_sem_margens (txt : str) (w : W) :
  (forall s w',
      simplificar_texto C txt w = (Ok s, w') ->
      (exists resposta,
          chain_invoke C (PromptSimplificar txt) w = (Ok resposta, w')
          /\ s = strip resposta)
      /\ (forall c rest, s = c :: rest -> isspace c = false)
      /\ (forall ini c, s = ini ++ [c] -> isspace c = false))
  /\ (forall e w',
        simplificar_texto C txt w = (Raise e, w')
        <-> chain_invoke C (PromptSimplificar txt) w = (Raise e, w')).
Proof.
  unfold simplificar_texto, bind, ret.
  destruct (chain_invoke C (PromptSimplificar txt) w) as [[resposta|e0] w0].
  - split.
    + intros s w' [= <- <-]. split; [eauto|apply strip_ends].
    + intros e w'. split; discriminate.
  - split; [discriminate|].
    intros e w'. tauto.
Qed.

End Simplificacao.

Lemma simplificar_texto_sem_margens_witness :
  (exists resposta,
      chain_invoke (Amostra.colaboradores Amostra.tudo_certo)
        (PromptSimplificar (py "bom dia")) [] = (Ok resposta, [])
      /\ py "texto simples" = strip resposta)
  /\ (forall c rest, py "texto simples" = c :: rest -> isspace c = false)
  /\ (forall ini c, py "texto simples" = ini ++ [c] -> isspace c = false).
Proof.
  apply (proj1 (simplificar_texto_sem_margens
                  (Amostra.colaboradores Amostra.tudo_certo) (py "bom dia") [])
           (py "texto simples") []).
  reflexivity.
Defined.

(** ** Orchestration: failures, retries and the portal *)

Section OrquestracaoExtra.

Context {W : Type} (C : Collaborators W).

Lemma analisar_nunca_levanta (txt : str) (citacoes : list citacao) (w : W) :
  exists v w', analisar_discrepancias C txt citacoes w = (Ok v, w').
Proof.
  unfold analisar_discrepancias, bind.
  destruct (montar_conteudo_leis_total C citacoes w) as (cl & w1 & ->).
  unfold try_except.
  destruct (analisar_try C txt citacoes cl w1) as [[v|e] w2];
    [eauto | unfold analisar_except; eauto].
Qed.

Lemma leis_loop_total (citacoes : list citacao) (acc : list LeiEncontrada)
    (vistas : gset str) (w : W) :
  exists l w', leis_loop C citacoes acc vistas w = (Ok l, w').
Proof.
  revert acc vistas w; induction citacoes as [|cit rest IH];
    intros acc vistas w; simpl.
  - unfold ret. eauto.
  - destruct (lei_busca_de (texto cit)) as [lei_busca|]; [|apply IH].
    destruct (bool_decide (lei_busca ∈ vistas)); [apply IH|].
    unfold bind.
    destruct (buscar_nunca_levanta C lei_busca w) as (r & w1 & ->).
    destruct r; apply IH.
Qed.

(** An exception of [processar_documento_completo] is the exception of
    the model call of the simplification, made after the analysis. *)
Lemma processar_levanta (txt : str) (w w' : W) (e : exn) :
  processar_documento_completo C txt w = (Raise e, w') ->
  exists d w1,
    analisar_discrepancias C txt (extrair C txt) w = (Ok d, w1)
    /\ chain_invoke C (PromptSimplificar txt) w1 = (Raise e, w').
Proof.
  unfold processar_documento_completo, simplificar_texto, bind. intros H.
  destruct (analisar_discrepancias C txt (extrair C txt) w) as [[d|e0] w1] eqn:Ha.
  - destruct (chain_invoke C (PromptSimplificar txt) w1) as [[s|e1] w2] eqn:Hc.
    + unfold ret at 1 in H.
      destruct (leis_loop_total (extrair C txt) [] ∅ w2) as (l & w3 & Hl).
      rewrite Hl in H. discriminate.
    + injection H as <- <-. exists d, w1. auto.
  - destruct (analisar_nunca_levanta txt (extrair C txt) w) as (d & w2 & Hd).
    rewrite Hd in Ha. discriminate.
Qed.

(** X14: the simplification is the only step that can make
    [processar_documento_completo] fail.  It raises an exception exactly
    when the model call of the simplification raised it, after an analysis
    that returned; whatever the portal and the model of the analysis do,
    it returns a result whenever that call answers. *)
Theorem processar_so_falha_na_simplificacao (txt : str) (w : W) :
  (forall e w',
      processar_documento_completo C txt w = (Raise e, w')
      <-> exists d w1,
            analisar_discrepancias C txt (extrair C txt) w = (Ok d, w1)
            /\ chain_invoke C (PromptSimplificar txt) w1 = (Raise e, w'))
  /\ ((forall w1, exists s w2,
          chain_invoke C (PromptSimplificar txt) w1 = (Ok s, w2)) ->
      exists r w', processar_documento_completo C txt w = (Ok r, w')).
Proof.
  split.
  - intros e w'. split; [apply processar_levanta|].
    intros (d & w1 & Ha & Hc).
    unfold processar_documento_completo, simplificar_texto, bind.
    rewrite Ha, Hc. reflexivity.
  - intros Hs.
    unfold processar_documento_completo, simplificar_texto, bind.
    destruct (analisar_nunca_levanta txt (extrair C txt) w) as (d & w1 & ->).
    destruct (Hs w1) as (s & w2 & ->). unfold ret at 1.
    destruct (leis_loop_total (extrair C txt) [] ∅ w2) as (l & w3 & ->).
    unfold ret. eauto.
Qed.

(** The loop of the source and the loop that keeps the attempts run
    alike, and the entries of the first are those of the answered attempts
    of the second. *)
Lemma leis_loop_tentativas_sim (citacoes : list citacao)
    (ts : list (str * option ConteudoLei)) (vistas : gset str) (w : W) :
  leis_loop C citacoes (List.map entrada (omap snd ts)) vistas w
  = match leis_loop_tentativas C citacoes ts vistas w with
    | (Ok l, w') => (Ok (List.map entrada (omap snd l)), w')
    | (Raise e, w') => (Raise e, w')
    end.
Proof.
  revert ts vistas w; induction citacoes as [|cit rest IH];
    intros ts vistas w; simpl; [reflexivity|].
  destruct (lei_busca_de (texto cit)) as [lei_busca|]; [|apply IH].
  destruct (bool_decide (lei_busca ∈ vistas)); [apply IH|].
  unfold bind.
  destruct (buscar_conteudo_lei C lei_busca w) as [[[c|]|e] w1];
    [| |reflexivity].
  - rewrite <- IH, omap_app, List.map_app. reflexivity.
  - rewrite <- IH, omap_app. simpl. rewrite app_nil_r. reflexivity.
Qed.

Lemma leis_loop_tentativas_inv (citacoes : list citacao)
    (ts : list (str * option ConteudoLei)) (vistas : gset str) (w w' : W)
    (l : list (str * option ConteudoLei)) :
  leis_loop_tentativas C citacoes ts vistas w = (Ok l, w') ->
  NoDup (List.map fst ts) ->
  (forall t, In t ts -> fst t ∈ vistas) ->
  NoDup (List.map fst l).
Proof.
  revert ts vistas w; induction citacoes as [|cit rest IH];
    intros ts vistas w H Hnd Hin; simpl in H.
  - injection H as <- <-. exact Hnd.
  - destruct (lei_busca_de (texto cit)) as [lei_busca|];
      [|eapply IH; eauto].
    destruct (bool_decide (lei_busca ∈ vistas)) eqn:Hv; [eapply IH; eauto|].
    apply bool_decide_eq_false in Hv.
    unfold bind in H.
    destruct (buscar_conteudo_lei C lei_busca w) as [[r|e] w1];
      [|discriminate].
    eapply IH; [exact H| |].
    + rewrite List.map_app. simpl.
      apply NoDup_app. split; [exact Hnd|split].
      * intros x Hx Hx'. apply list_elem_of_In in Hx.
        apply in_map_iff in Hx as (t & <- & Ht).
        apply list_elem_of_singleton in Hx'.
        apply Hv. rewrite <- Hx'. apply Hin, Ht.
      * apply NoDup_singleton.
    + intros t Ht. apply in_app_iff in Ht as [Ht|[<-|[]]].
      * apply elem_of_union_r, Hin, Ht.
      * apply elem_of_union_l, elem_of_singleton. reflexivity.
Qed.

(** X15: no law is asked for twice in the loop that builds
    [leisEncontradas], the laws whose lookup failed included: the calls of
    [buscar_conteudo_lei] the loop makes are for pairwise distinct laws,
    and the entries of the result are those of the calls that were
    answered, in their order. *)
Theorem leis_sem_nova_tentativa (txt : str) (w w' : W) (r : Resultado) :
  processar_documento_completo C txt w = (Ok r, w') ->
  exists ts w2,
    leis_loop_tentativas C (extrair C txt) [] ∅ w2 = (Ok ts, w')
    /\ leisEncontradas r = List.map entrada (omap snd ts)
    /\ NoDup (List.map fst ts).
Proof.
  unfold processar_documento_completo, bind. intros H.
  destruct (analisar_discrepancias C txt (extrair C txt) w) as [[d|e] w1];
    [|discriminate].
  destruct (simplificar_texto C txt w1) as [[s|e] w2]; [|discriminate].
  pose proof (leis_loop_tentativas_sim (extrair C txt) [] ∅ w2) as Hsim.
  simpl in Hsim. rewrite Hsim in H.
  destruct (leis_loop_tentativas C (extrair C txt) [] ∅ w2) as [[ts|e] w3] eqn:Hl;
    [|discriminate].
  unfold ret in H. injection H as <- <-. simpl.
  exists ts, w2. split; [exact Hl|split; [reflexivity|]].
  eapply leis_loop_tentativas_inv; [exact Hl|constructor|intros t []].
Qed.

(** X16: [leisEncontradas] has no more entries than the citations have
    distinct laws under the mapping of the loop. *)
Theorem leis_encontradas_limite (txt : str) (w w' : W) (r : Resultado) :
  processar_documento_completo C txt w = (Ok r, w') ->
  (length (leisEncontradas r)
   <= size (list_to_set
              (omap (fun cit => lei_busca_de (texto cit)) (extrair C txt))
            : gset str))%nat.
Proof.
  unfold processar_documento_completo, bind. intros H.
  destruct (analisar_discrepancias C txt (extrair C txt) w) as [[d|e] w1];
    [|discriminate].
  destruct (simplificar_texto C txt w1) as [[s|e] w2]; [|discriminate].
  pose proof (leis_loop_conteudos_sim C (extrair C txt) [] ∅ w2) as Hsim.
  simpl in Hsim. rewrite Hsim in H.
  destruct (leis_loop_conteudos C (extrair C txt) [] ∅ w2) as [[cs|e] w3] eqn:Hl;
    [|discriminate].
  unfold ret in H. injection H as <- <-. simpl.
  destruct (leis_loop_conteudos_inv C _ _ _ _ _ _ Hl) as [Hnd _];
    [constructor|intros c []|].
  rewrite length_map, <- (length_map c_lei cs).
  rewrite <- (size_list_to_set (C := gset str) _ Hnd).
  apply subseteq_size. intros x Hx.
  apply elem_of_list_to_set, list_elem_of_In, in_map_iff in Hx as (c & <- & Hc).
  destruct (leis_loop_conteudos_origem C _ _ _ _ _ _ c Hl Hc)
    as [[]|(cit & Hcit & Hlb)].
  apply elem_of_list_to_set, list_elem_of_omap.
  exists cit. split; [apply list_elem_of_In; exact Hcit|exact Hlb].
Qed.

Lemma leis_loop_sem_lei (citacoes : list citacao) (acc : list LeiEncontrada)
    (vistas : gset str) (w : W) :
  (forall cit, In cit citacoes -> lei_busca_de (texto cit) = None) ->
  leis_loop C citacoes acc vistas w = (Ok acc, w).
Proof.
  induction citacoes as [|cit rest IH]; intros Hn; simpl; [reflexivity|].
  rewrite (Hn cit) by (left; reflexivity).
  apply IH. intros c Hc. apply Hn. right. exact Hc.
Qed.

(** X17: a document whose citations hold none of "Lei", "CDC" and
    "Código" (articles, and the abbreviation "CC") gets an empty
    [leisEncontradas], and the loop asks the portal nothing: the world is
    left as the simplification left it. *)
Theorem so_artigos_sem_leis_encontradas (txt : str) (w w' : W) (r : Resultado) :
  (forall cit, In cit (extrair C txt) ->
               contains (py "Lei") (texto cit) = false
               /\ contains (py "CDC") (texto cit) = false
               /\ contains (py "Código") (texto cit) = false) ->
  processar_documento_completo C txt w = (Ok r, w') ->
  leisEncontradas r = []
  /\ exists d w1 s,
       analisar_discrepancias C txt (extrair C txt) w = (Ok d, w1)
       /\ simplificar_texto C txt w1 = (Ok s, w').
Proof.
  intros Hn. unfold processar_documento_completo, bind. intros H.
  destruct (analisar_discrepancias C txt (extrair C txt) w) as [[d|e] w1];
    [|discriminate].
  destruct (simplificar_texto C txt w1) as [[s|e] w2] eqn:Hs; [|discriminate].
  rewrite leis_loop_sem_lei in H.
  - unfold ret in H. injection H as <- <-. simpl. split; [reflexivity|].
    exists d, w1, s. auto.
  - intros cit Hc. destruct (Hn cit Hc) as (H1 & H2 & H3).
    unfold lei_busca_de. rewrite H1, H2, H3. reflexivity.
Qed.

(** *** The portal out of reach *)

Hypothesis portal_fora :
  forall url q w, exists e w', requests_get C url q w = (Raise e, w').

Lemma buscar_portal_fora (lei_id : str) (w : W) :
  exists w', buscar_conteudo_lei C lei_id w = (Ok None, w').
Proof.
  unfold buscar_conteudo_lei, try_except, buscar_conteudo_lei_try, bind.
  destruct (portal_fora url_busca (Some lei_id) w) as (e & w1 & ->).
  unfold buscar_except. eauto.
Qed.

Lemma juntar_portal_fora (leis : list str) (acc : str) (w : W) :
  exists w', juntar_conteudos C leis acc w = (Ok acc, w').
Proof.
  revert w; induction leis as [|l leis IH]; intros w; simpl.
  - unfold ret. eauto.
  - unfold bind. destruct (buscar_portal_fora l w) as (w1 & ->). apply IH.
Qed.

Lemma leis_loop_portal_fora (citacoes : list citacao)
    (acc : list LeiEncontrada) (vistas : gset str) (w : W) :
  exists w', leis_loop C citacoes acc vistas w = (Ok acc, w').
Proof.
  revert vistas w; induction citacoes as [|cit rest IH]; intros vistas w; simpl.
  - unfold ret. eauto.
  - destruct (lei_busca_de (texto cit)) as [lei_busca|]; [|apply IH].
    destruct (bool_decide (lei_busca ∈ vistas)); [apply IH|].
    unfold bind. destruct (buscar_portal_fora lei_busca w) as (w1 & ->).
    apply IH.
Qed.

(** X18: with the portal out of reach (every request raises) the prompt
    of the analysis gets the fixed placeholder as contents of the laws, the
    model is still asked, and a result of
    [processar_documento_completo] has an empty [leisEncontradas]. *)
Theorem portal_fora_do_ar (txt : str) (citacoes : list citacao) (w : W) :
  (exists w1, montar_conteudo_leis C citacoes w = (Ok SEM_CONTEUDO, w1))
  /\ (forall r w',
        processar_documento_completo C txt w = (Ok r, w') ->
        leisEncontradas r = []).
Proof.
  split.
  - unfold montar_conteudo_leis, bind.
    destruct (juntar_portal_fora (elements (leis_identificadas citacoes)) [] w)
      as (w1 & ->).
    unfold ret. eauto.
  - unfold processar_documento_completo, bind. intros r w' H.
    destruct (analisar_discrepancias C txt (extrair C txt) w) as [[d|e] w1];
      [|discriminate].
    destruct (simplificar_texto C txt w1) as [[s|e] w2]; [|discriminate].
    destruct (leis_loop_portal_fora (extrair C txt) [] ∅ w2) as (w3 & Hl).
    rewrite Hl in H. unfold ret in H. injection H as <- _. reflexivity.
Qed.

End OrquestracaoExtra.

Lemma processar_so_falha_na_simplificacao_witness :
  processar_documento_completo
    (Amostra.colaboradores Amostra.simplificacao_falha)
    (py "conforme o CDC") []
  = (Raise (ModelError (py "rate limit")), [])
  /\ exists r w',
       processar_documento_completo (Amostra.colaboradores Amostra.portal_fora)
         (py "conforme o CDC") [] = (Ok r, w').
Proof.
  split.
  - apply (proj2 (proj1 (processar_so_falha_na_simplificacao
                           (Amostra.colaboradores Amostra.simplificacao_falha)
                           (py "conforme o CDC") [])
                    (ModelError (py "rate limit")) [])).
    exists (PyList []), []. split; reflexivity.
  - apply (proj2 (processar_so_falha_na_simplificacao
                    (Amostra.colaboradores Amostra.portal_fora)
                    (py "conforme o CDC") [])).
    intros w1. exists (py "texto simples"), w1. reflexivity.
Defined.

Lemma leis_sem_nova_tentativa_witness :
  exists ts w2,
    leis_loop_tentativas (Amostra.colaboradores Amostra.portal_fora)
      (extrair (Amostra.colaboradores Amostra.portal_fora)
         (py "o CDC, a Lei 8.078/90 e o CDC"))
      [] ∅ w2
    = (Ok ts, [py "Erro ao buscar lei Lei 8.078/90: ConnectionError";
               py "Erro ao buscar lei Lei 8.078/90: ConnectionError"])
    /\ [] = List.map entrada (omap snd ts)
    /\ NoDup (List.map fst ts).
Proof.
  apply (leis_sem_nova_tentativa (Amostra.colaboradores Amostra.portal_fora)
           (py "o CDC, a Lei 8.078/90 e o CDC") []
           [py "Erro ao buscar lei Lei 8.078/90: ConnectionError";
            py "Erro ao buscar lei Lei 8.078/90: ConnectionError"]
           {| textoSimplificado := py "texto simples";
              discrepancias := PyList [];
              leisEncontradas := [];
              citacoesEncontradas := 3 |}).
  vm_compute. reflexivity.
Defined.

Lemma leis_encontradas_limite_witness :
  (length [entrada {| c_lei := py "Lei 8.078/90";
                      c_titulo := py "Lei 8.078";
                      c_link := py "http://portal/l8078";
                      c_conteudo := py "Art. 1 O presente codigo" |}]
   <= size (list_to_set
              (omap (fun cit => lei_busca_de (texto cit))
                 (extrair (Amostra.colaboradores Amostra.tudo_certo)
                    (py "o CDC, a Lei 8.078/90 e o CDC")))
            : gset str))%nat.
Proof.
  apply (leis_encontradas_limite (Amostra.colaboradores Amostra.tudo_certo)
           (py "o CDC, a Lei 8.078/90 e o CDC") [] []
           {| textoSimplificado := py "texto simples";
              discrepancias := PyList [];
              leisEncontradas :=
                [entrada {| c_lei := py "Lei 8.078/90";
                            c_titulo := py "Lei 8.078";
                            c_link := py "http://portal/l8078";
                            c_conteudo := py "Art. 1 O presente codigo" |}];
              citacoesEncontradas := 3 |}).
  vm_compute. reflexivity.
Defined.

Lemma so_artigos_sem_leis_encontradas_witness :
  [] = ([] : list LeiEncontrada)
  /\ exists d w1 s,
       analisar_discrepancias (Amostra.colaboradores Amostra.tudo_certo)
         (py "artigo 5 e CC")
         (extrair (Amostra.colaboradores Amostra.tudo_certo) (py "artigo 5 e CC"))
         [] = (Ok d, w1)
       /\ simplificar_texto (Amostra.colaboradores Amostra.tudo_certo)
            (py "artigo 5 e CC") w1 = (Ok s, []).
Proof.
  apply (so_artigos_sem_leis_encontradas
           (Amostra.colaboradores Amostra.tudo_certo) (py "artigo 5 e CC") [] []
           {| textoSimplificado := py "texto simples";
              discrepancias := PyList [];
              leisEncontradas := [];
              citacoesEncontradas := 2 |}).
  - intros cit Hc. vm_compute in Hc.
    destruct Hc as [<-|[<-|[]]]; repeat split; reflexivity.
  - vm_compute. reflexivity.
Defined.

Lemma portal_fora_do_ar_witness :
  exists w1,
    montar_conteudo_leis (Amostra.colaboradores Amostra.portal_fora)
      [{| texto := py "CDC"; posicao := (0, 3)%nat; tipo := tipo_artigo |}] []
    = (Ok SEM_CONTEUDO, w1).
Proof.
  assert (Hf : forall url q w, exists e w',
               requests_get (Amostra.colaboradores Amostra.portal_fora) url q w
               = (Raise e, w')).
  { intros url q w. exists ConnectionError, w. destruct q; reflexivity. }
  apply (proj1 (portal_fora_do_ar (Amostra.colaboradores Amostra.portal_fora)
                  Hf (py "o CDC")
                  [{| texto := py "CDC"; posicao := (0, 3)%nat;
                      tipo := tipo_artigo |}] [])).
Defined.

(** ** The handler of the service *)

Section ServicoProps.

Context {W : Type}.

(** X19: what [POST /api/processar] can answer.  It returns a result only
    with an analyzer, for a text that is not empty, and then the result of
    [processar_documento_completo]; it raises 400 for the empty text before
    anything else is looked at, the world untouched; 500 without an
    analyzer, the world untouched; and otherwise 500 only when the model
    call of the simplification raised, with the text of that exception as
    detail.  No failure of the portal or of the analysis becomes an HTTP
    error. *)
Theorem processar_documento_respostas (analisador : option (Collaborators W))
    (txt : str) (w w' : W) (resp : resposta_api) :
  processar_documento analisador txt w = (resp, w') ->
  match resp with
  | Retorno r =>
      txt <> []
      /\ exists C, analisador = Some C
                   /\ processar_documento_completo C txt w = (Ok r, w')
  | HTTPException codigo detail =>
      (codigo = 400 /\ detail = py "Texto não fornecido" /\ txt = [] /\ w' = w)
      \/ (codigo = 500
          /\ detail = py "Analisador não inicializado. Configure OPENAI_API_KEY"
          /\ txt <> [] /\ analisador = None /\ w' = w)
      \/ (codigo = 500 /\ txt <> []
          /\ exists C e d w1,
               analisador = Some C
               /\ detail = exn_str C e
               /\ analisar_discrepancias C txt (extrair C txt) w = (Ok d, w1)
               /\ chain_invoke C (PromptSimplificar txt) w1 = (Raise e, w'))
  end.
Proof.
  unfold processar_documento. intros H.
  destruct txt as [|c txt0].
  { injection H as <- <-. left. auto. }
  destruct analisador as [C|].
  2:{ injection H as <- <-. right. left. repeat split; auto; discriminate. }
  destruct (processar_documento_completo C (c :: txt0) w) as [[r|e] w1] eqn:Hp;
    injection H as <- <-.
  - split; [discriminate|]. exists C. auto.
  - right. right. split; [reflexivity|split; [discriminate|]].
    apply processar_levanta in Hp as (d & w2 & Ha & Hc).
    exists C, e, d, w2. auto.
Qed.

(** X20: a service started without [OPENAI_API_KEY] in the environment
    (unset or empty), or whose analyzer could not be built, keeps no
    analyzer and answers every request that has a text with 500 and the
    hint to configure the key, without touching the world. *)
Theorem servico_sem_chave (getenv : str -> option str)
    (novo_analisador : str -> result (Collaborators W))
    (imprime : str -> W -> W) (str_e : exn -> str) (w : W) :
  getenv (py "OPENAI_API_KEY") = None
  \/ getenv (py "OPENAI_API_KEY") = Some []
  \/ (exists k e, getenv (py "OPENAI_API_KEY") = Some k
                  /\ novo_analisador k = Raise e) ->
  fst (startup_event None getenv novo_analisador imprime str_e w) = None
  /\ forall txt w2,
       txt <> [] ->
       processar_documento
         (fst (startup_event None getenv novo_analisador imprime str_e w))
         txt w2
       = (HTTPException 500
            (py "Analisador não inicializado. Configure OPENAI_API_KEY"), w2).
Proof.
  intros H.
  assert (E : fst (startup_event None getenv novo_analisador imprime str_e w)
              = None).
  { unfold startup_event.
    destruct H as [->|[->|(k & e & -> & Hn)]]; [reflexivity|reflexivity|].
    destruct k; [reflexivity|]. rewrite Hn. reflexivity. }
  split; [exact E|].
  intros txt w2 Ht. rewrite E. unfold processar_documento.
  destruct txt; [congruence|reflexivity].
Qed.

End ServicoProps.

Lemma processar_documento_respostas_witness :
  py "bom dia" <> []
  /\ exists C,
       Some (Amostra.colaboradores Amostra.tudo_certo) = Some C
       /\ processar_documento_completo C (py "bom dia") []
          = (Ok {| textoSimplificado := py "texto simples";
                   discrepancias := PyList [];
                   leisEncontradas := [];
                   citacoesEncontradas := 0 |}, []).
Proof.
  apply (processar_documento_respostas
           (Some (Amostra.colaboradores Amostra.tudo_certo)) (py "bom dia") [] []
           (Retorno {| textoSimplificado := py "texto simples";
                       discrepancias := PyList [];
                       leisEncontradas := [];
                       citacoesEncontradas := 0 |})).
  reflexivity.
Defined.

Lemma servico_sem_chave_witness :
  processar_documento
    (fst (startup_event (W := Amostra.Mundo) None (fun _ => None)
            (fun _ => Raise (ModelError [])) (fun l w => w ++ [l])
            Amostra.nome_exn []))
    (py "bom dia") []
  = (HTTPException 500
       (py "Analisador não inicializado. Configure OPENAI_API_KEY"), []).
Proof.
  apply (proj2 (servico_sem_chave (W := Amostra.Mundo) (fun _ => None)
                  (fun _ => Raise (ModelError [])) (fun l w => w ++ [l])
                  Amostra.nome_exn [] (or_introl eq_refl))).
  discriminate.
Defined.

(** ** The client of the service *)

Lemma app_nao_vazio (p x : str) : p <> [] -> p ++ x <> [].
Proof. destruct p; [congruence|discriminate]. Qed.

Section ClienteProps.

Context {W : Type} (A : ColaboradoresApp W).

Lemma processar_documento_api_except_erro (e : exn) (w : W) :
  exists msg w',
    processar_documento_api_except A e w = (Ok (PyNone, Some msg), w')
    /\ msg <> [].
Proof.
  destruct e; simpl; unfold bind, log, ret; eexists _, _;
    (split; [reflexivity|]);
    try (apply app_nao_vazio); vm_compute; discriminate.
Qed.

(** What the [try] block needs to get through: a response whose status
    [raise_for_status] lets pass and whose body reads as a JSON object,
    with a ['discrepancias'] that has a length. *)
Lemma processar_documento_api_try_ok (txt api_url : str) (w w' : W) (v : pyval) :
  processar_documento_api_try A txt api_url w = (Ok v, w') ->
  exists r w1 d n,
    requests_post A (api_url ++ py "/api/processar") txt
      (mundo_do_pedido A txt api_url w) = (Ok r, w1)
    /\ status_ok r = true
    /\ response_json A r = Ok v
    /\ v = PyDict d
    /\ py_len (discrepancias_de d) = Ok n.
Proof.
  unfold processar_documento_api_try, bind, log, lift, raise_for_status,
    mundo_do_pedido, raise, ret.
  intros H.
  destruct (requests_post A (api_url ++ py "/api/processar") txt _)
    as [[r|e] w1] eqn:Hr; [|discriminate].
  destruct ((400 <=? status_code r) && (status_code r <? 600)) eqn:Hs;
    [discriminate|].
  destruct (response_json A r) as [v0|e] eqn:Hj; [|discriminate].
  destruct v0 as [| | | | | |d]; try discriminate.
  simpl in H.
  destruct (py_len (discrepancias_de d)) as [n|e] eqn:Hl.
  - unfold discrepancias_de in Hl. rewrite Hl in H. injection H as <- <-.
    exists r, w1, d, n. unfold status_ok. rewrite Hs.
    unfold discrepancias_de. auto.
  - unfold discrepancias_de in Hl. rewrite Hl in H. discriminate.
Qed.

(** X21: [processar_documento_api] never raises and returns one of two
    pairs: a result and no error, the result being a JSON object whose
    ['discrepancias'] (the empty list when missing) has a length; or no
    result and an error message that is not empty, so that the test
    [if erro] of the caller tells the two apart. *)
Theorem processar_documento_api_retorno (txt api_url : str) (w : W) :
  exists resultado erro w',
    processar_documento_api A txt api_url w = (Ok (resultado, erro), w')
    /\ ((erro = None
         /\ exists d n, resultado = PyDict d
                        /\ py_len (discrepancias_de d) = Ok n)
        \/ (resultado = PyNone
            /\ exists msg, erro = Some msg /\ msg <> [])).
Proof.
  unfold processar_documento_api, try_except, bind.
  destruct (processar_documento_api_try A txt api_url w) as [[v|e] w1] eqn:Ht.
  - unfold ret. exists v, None, w1. split; [reflexivity|]. left.
    apply processar_documento_api_try_ok in Ht
      as (r & w2 & d & n & _ & _ & _ & Hd & Hl).
    split; [reflexivity|]. exists d, n. auto.
  - destruct (processar_documento_api_except_erro e w1) as (msg & w' & -> & Hm).
    exists PyNone, (Some msg), w'. split; [reflexivity|]. right.
    split; [reflexivity|]. exists msg. auto.
Qed.

(** X22: an HTTP error status of the service (the 400 and 500 of its
    handler among them) reaches the user as a connection problem: the
    client returns no result and the message "Erro ao conectar com a
    API: " followed by the text of the [HTTPError], and the body of the
    response is not read. *)
Theorem processar_documento_api_status (txt api_url : str) (w w1 : W)
    (r : Response) :
  requests_post A (api_url ++ py "/api/processar") txt
    (mundo_do_pedido A txt api_url w) = (Ok r, w1) ->
  status_ok r = false ->
  processar_documento_api A txt api_url w
  = (Ok (PyNone,
         Some (py "Erro ao conectar com a API: "
               ++ str_exn A (HTTPError (status_code r)))),
     logger A ERROR
       (py "Erro ao conectar com a API: "
        ++ str_exn A (HTTPError (status_code r))) w1).
Proof.
  intros Hr Hs.
  unfold processar_documento_api, try_except, bind,
    processar_documento_api_try, bind, log, raise_for_status.
  unfold mundo_do_pedido in Hr. rewrite Hr.
  unfold status_ok in Hs. apply negb_false_iff in Hs. rewrite Hs.
  reflexivity.
Qed.

(** X23: an answer that is not what the client expects is reported as an
    unexpected error although the request went through: a body that reads
    as JSON but is no object (the client calls [.get] on it), and an
    object whose ['discrepancias'] has no length, such as [null] (the
    client takes its [len]). *)
Theorem processar_documento_api_inesperado (txt api_url : str) (w w1 : W)
    (r : Response) (v : pyval) :
  requests_post A (api_url ++ py "/api/processar") txt
    (mundo_do_pedido A txt api_url w) = (Ok r, w1) ->
  status_ok r = true ->
  response_json A r = Ok v ->
  ((forall d, v <> PyDict d) ->
   exists w',
     processar_documento_api A txt api_url w
     = (Ok (PyNone, Some (py "Erro inesperado: " ++ str_exn A AttributeError)),
        w'))
  /\ (forall d,
        v = PyDict d ->
        py_len (discrepancias_de d) = Raise TypeError ->
        exists w',
          processar_documento_api A txt api_url w
          = (Ok (PyNone, Some (py "Erro inesperado: " ++ str_exn A TypeError)),
             w')).
Proof.
  intros Hr Hs Hj.
  unfold processar_documento_api, try_except, bind,
    processar_documento_api_try, bind, log, lift, raise_for_status.
  unfold mundo_do_pedido in Hr. rewrite Hr.
  unfold status_ok in Hs. apply negb_true_iff in Hs. rewrite Hs.
  unfold ret at 1. rewrite Hj.
  split.
  - intros Hv.
    destruct v as [| | | | | |d]; simpl; try (eexists; reflexivity).
    destruct (Hv d eq_refl).
  - intros d -> Hl. simpl. unfold discrepancias_de in Hl. rewrite Hl.
    simpl. eexists. reflexivity.
Qed.

End ClienteProps.

Lemma processar_documento_api_retorno_witness :
  exists resultado erro w',
    processar_documento_api
      (AmostraApp.colaboradores AmostraApp.ok200 (Ok AmostraApp.corpo_ok))
      (py "bom dia") (py "http://localhost:8000") []
    = (Ok (resultado, erro), w')
    /\ ((erro = None
         /\ exists d n, resultado = PyDict d
                        /\ py_len (discrepancias_de d) = Ok n)
        \/ (resultado = PyNone
            /\ exists msg, erro = Some msg /\ msg <> [])).
Proof.
  apply (processar_documento_api_retorno
           (AmostraApp.colaboradores AmostraApp.ok200 (Ok AmostraApp.corpo_ok))
           (py "bom dia") (py "http://localhost:8000") []).
Defined.

Lemma processar_documento_api_status_witness :
  fst (processar_documento_api
         (AmostraApp.colaboradores AmostraApp.erro500 (Raise JSONDecodeError))
         (py "bom dia") (py "http://localhost:8000") [])
  = Ok (PyNone, Some (py "Erro ao conectar com a API: HTTPError")).
Proof.
  rewrite (processar_documento_api_status
             (AmostraApp.colaboradores AmostraApp.erro500 (Raise JSONDecodeError))
             (py "bom dia") (py "http://localhost:8000") []
             (mundo_do_pedido
                (AmostraApp.colaboradores AmostraApp.erro500
                   (Raise JSONDecodeError))
                (py "bom dia") (py "http://localhost:8000") [])
             {| status_code := 500; text := py "Internal Server Error" |}
             eq_refl eq_refl).
  reflexivity.
Defined.

Lemma processar_documento_api_inesperado_witness :
  exists w',
    processar_documento_api
      (AmostraApp.colaboradores AmostraApp.ok200
         (Ok (PyDict [(py "discrepancias", PyNone)])))
      (py "bom dia") (py "http://localhost:8000") []
    = (Ok (PyNone, Some (py "Erro inesperado: TypeError")), w').
Proof.
  apply (proj2 (processar_documento_api_inesperado
                  (AmostraApp.colaboradores AmostraApp.ok200
                     (Ok (PyDict [(py "discrepancias", PyNone)])))
                  (py "bom dia") (py "http://localhost:8000") []
                  (mundo_do_pedido
                     (AmostraApp.colaboradores AmostraApp.ok200
                        (Ok (PyDict [(py "discrepancias", PyNone)])))
                     (py "bom dia") (py "http://localhost:8000") [])
                  {| status_code := 200; text := py "{...}" |}
                  (PyDict [(py "discrepancias", PyNone)])
                  eq_refl eq_refl eq_refl)
           [(py "discrepancias", PyNone)]);
    reflexivity.
Defined.

(** ** The client on sample answers *)

Example str_int_amostra :
  str_int 0 = py "0" /\ str_int 7 = py "7" /\ str_int 1000 = py "1000"
  /\ str_int 1234 = py "1234".
Proof. repeat split; reflexivity. Qed.

Example processar_documento_api_amostra :
  processar_documento_api
    (AmostraApp.colaboradores AmostraApp.ok200 (Ok AmostraApp.corpo_ok))
    (py "bom dia") (py "http://localhost:8000") []
  = (Ok (AmostraApp.corpo_ok, None),
     [(INFO, py "Iniciando processamento de documento (tamanho: 7 caracteres)");
      (DEBUG, py "URL da API: http://localhost:8000");
      (INFO, py "Documento processado com sucesso - 0 citações encontradas");
      (INFO, py "Discrepâncias encontradas: 0")]).
Proof. reflexivity. Qed.

Example processar_documento_api_timeout :
  processar_documento_api
    (AmostraApp.colaboradores (Raise Timeout) (Raise JSONDecodeError))
    (py "bom dia") (py "http://localhost:8000") []
  = (Ok (PyNone, Some TIMEOUT_MSG),
     [(INFO, py "Iniciando processamento de documento (tamanho: 7 caracteres)");
      (DEBUG, py "URL da API: http://localhost:8000");
      (ERROR, TIMEOUT_MSG)]).
Proof. reflexivity. Qed.
